(** * Daily money-in / money-out report over a paginated bank API

    A shallow embedding of [main.py]: [get_transactions] (the pagination
    loop), [calculate_daily_amounts] (the per-day aggregation with
    gap-filling) and [generate_report] (the per-account driver), with the
    properties of the specification proved about them.

    Conventions.
    - A Python [date] is its proleptic Gregorian ordinal ([date.toordinal()]),
      an integer; comparison, hashing and [timedelta] arithmetic on dates are
      those of the ordinal.  The bounds [date.min] and [date.max] (and the
      [OverflowError] beyond them) are not modelled.
    - A Python [float] is a binary64 number: Rocq's primitive [float], whose
      addition is the IEEE 754 addition that Python performs.  The initial
      accumulator value, the Python [int] [0], is identified with [0.0]
      (Python computes [0 + x] as [0.0 + x], and [0 == 0.0]).
    - The library calls [datetime.strptime], [float] and [date.strftime] are
      the members of the class [Library]; every theorem holds for whatever
      these functions compute.  [None] stands for the [ValueError] they raise.
    - JSON objects are records with the keys the code reads, their values
      strings.  A response or a transaction that lacks such a key (a
      [KeyError] in the program), a request that fails and a body that is
      not JSON are outside the model: the server is a list of well-formed
      responses.
    - [open(file_name, "w")] may fail, by the name and by what the file
      system refuses; the writes to a file that was opened succeed. *)

From Stdlib Require Import ZArith Floats Ascii String.
From stdpp Require Import base option list list_numbers sorting gmap strings.

Local Open Scope Z_scope.

(** ** Dates, datetimes and timedeltas *)

(** A calendar day, as its ordinal. *)
Abbreviation Date := Z.

Definition US_PER_DAY : Z := 86400000000.

(** [datetime]: a day and the microseconds elapsed since its midnight. *)
Record Datetime : Type := mkDatetime {
  dt_date : Date;   (* [.date()] *)
  dt_time : Z
}.

(** [timedelta], normalised as Python does: [0 <= td_rest < US_PER_DAY]
    ([td_rest] gathers its [seconds] and [microseconds]). *)
Record Timedelta : Type := mkTimedelta {
  days : Z;
  td_rest : Z
}.

(** [timedelta(n)]: [n] days. *)
Definition timedelta (n : Z) : Timedelta := mkTimedelta n 0.

(** [a - b] on datetimes. *)
Definition datetime_sub (a b : Datetime) : Timedelta :=
  let us := (dt_date a - dt_date b) * US_PER_DAY + (dt_time a - dt_time b) in
  mkTimedelta (us / US_PER_DAY) (us mod US_PER_DAY).

(** [a + td] on a datetime. *)
Definition datetime_add (a : Datetime) (td : Timedelta) : Datetime :=
  let us := dt_time a + td_rest td in
  mkDatetime (dt_date a + days td + us / US_PER_DAY) (us mod US_PER_DAY).

(** ** The library functions the program calls *)

Class Library : Type := {
  (** [datetime.strptime(data, format)] *)
  strptime : string → string → option Datetime;
  (** [float(s)] *)
  py_float : string → option float;
  (** [d.strftime(format)] on a date *)
  strftime : Date → string → string;
  (** a format without time directives yields midnight *)
  strptime_date_only : ∀ s dt,
    strptime s "%d-%m-%Y" = Some dt → dt_time dt = 0
}.

(** ** Data model *)

(** A transaction of the statement, with the keys the program reads. *)
Record Transaction : Type := mkTransaction {
  DATE_TIME_DAT_OD_TIM_P : string;
  SUM : string;
  SUM_E : string;
  TRANTYPE : string;
  PR_PR : string;
  AUT_MY_NAM : option string   (* read with [.get(..., "Unknown")] *)
}.

(** The value stored per day in [daily_totals]. *)
Record Totals : Type := mkTotals {
  money_in : float;
  money_out : float;
  money_in_UAH : float;
  money_out_UAH : float
}.

(** One element of the returned list: [{"date": ..., **totals}]. *)
Record DailyAmount : Type := mkDailyAmount {
  date : string;
  totals : Totals
}.

(** The [defaultdict] factory. *)
Definition zero_totals : Totals :=
  {| money_in := 0; money_out := 0; money_in_UAH := 0; money_out_UAH := 0 |}.

(** Truth value of an optional string: [None] and [""] are false. *)
Definition truthy (s : option string) : bool :=
  match s with
  | None => false
  | Some s => negb (String.eqb s "")
  end.

(** ** calculate_daily_amounts *)

Section aggregator.
Context `{Library}.

(** [daily_totals[date][...] += ...]: the [defaultdict] lookup creates the
    zero record on a miss, then the record is updated in place. *)
Definition update_day (daily_totals : gmap Z Totals) (d : Date)
    (f : Totals → Totals) : gmap Z Totals :=
  <[d := f (default zero_totals (daily_totals !! d))]> daily_totals.

Definition add_money_in (amount : float) (r : Totals) : Totals :=
  {| money_in := money_in r + amount; money_out := money_out r;
     money_in_UAH := money_in_UAH r; money_out_UAH := money_out_UAH r |}.
Definition add_money_in_UAH (amount_uah : float) (r : Totals) : Totals :=
  {| money_in := money_in r; money_out := money_out r;
     money_in_UAH := money_in_UAH r + amount_uah;
     money_out_UAH := money_out_UAH r |}.
Definition add_money_out (amount : float) (r : Totals) : Totals :=
  {| money_in := money_in r; money_out := money_out r + amount;
     money_in_UAH := money_in_UAH r; money_out_UAH := money_out_UAH r |}.
Definition add_money_out_UAH (amount_uah : float) (r : Totals) : Totals :=
  {| money_in := money_in r; money_out := money_out r;
     money_in_UAH := money_in_UAH r;
     money_out_UAH := money_out_UAH r + amount_uah |}.

(** The body of [for transaction in transactions]. *)
Definition add_transaction (daily_totals : gmap Z Totals)
    (transaction : Transaction) : option (gmap Z Totals) :=
  dt ← strptime (DATE_TIME_DAT_OD_TIM_P transaction) "%d.%m.%Y %H:%M:%S";
  let date := dt_date dt in
  amount ← py_float (SUM transaction);
  amount_uah ← py_float (SUM_E transaction);
  if decide (TRANTYPE transaction = "C") then
    let daily_totals := update_day daily_totals date (add_money_in amount) in
    Some (update_day daily_totals date (add_money_in_UAH amount_uah))
  else
    let daily_totals := update_day daily_totals date (add_money_out amount) in
    Some (update_day daily_totals date (add_money_out_UAH amount_uah)).

Fixpoint add_transactions (daily_totals : gmap Z Totals)
    (transactions : list Transaction) : option (gmap Z Totals) :=
  match transactions with
  | [] => Some daily_totals
  | transaction :: transactions =>
      daily_totals ← add_transaction daily_totals transaction;
      add_transactions daily_totals transactions
  end.

(** The body of [for day in (start + timedelta(n) for n in range(day_count))]. *)
Definition fill_day (daily_totals : gmap Z Totals) (day : Datetime)
    : gmap Z Totals :=
  if decide (is_Some (daily_totals !! dt_date day)) then daily_totals
  else <[dt_date day := zero_totals]> daily_totals.

(** [range(day_count)] *)
Definition range (n : Z) : list Z := seqZ 0 n.

(** The order in which [sorted] puts the items: by key.  The keys of a
    dict are distinct, so the comparison of two items is decided by their
    dates and never reaches the records. *)
Definition item_le (a b : Z * Totals) : Prop := a.1 ≤ b.1.

Global Instance item_le_dec : RelDecision item_le.
Proof. intros a b. unfold item_le. apply _. Defined.

Definition sorted (items : list (Z * Totals)) : list (Z * Totals) :=
  merge_sort item_le items.

(** The function up to [sorted_totals = sorted(daily_totals.items())].
    [now] is the value [datetime.now()] returns; it is read only when
    [end_date] is false. *)
Definition sorted_totals (transactions : list Transaction)
    (start_date : string) (end_date : option string) (now : Datetime)
    : option (list (Date * Totals)) :=
  start ← strptime start_date "%d-%m-%Y";
  end_ ← (if truthy end_date
          then strptime (default "" end_date) "%d-%m-%Y"
          else Some now);
  let day_count := days (datetime_sub end_ start) + 1 in
  daily_totals ← add_transactions ∅ transactions;
  let daily_totals :=
    foldl fill_day daily_totals
      ((λ n, datetime_add start (timedelta n)) <$> range day_count) in
  Some (sorted (map_to_list daily_totals)).

(** [{"date": date.strftime("%Y-%m-%d"), **totals}] *)
Definition daily_amount (item : Date * Totals) : DailyAmount :=
  {| date := strftime item.1 "%Y-%m-%d"; totals := item.2 |}.

Definition calculate_daily_amounts (transactions : list Transaction)
    (start_date : string) (end_date : option string) (now : Datetime)
    : option (list DailyAmount) :=
  items ← sorted_totals transactions start_date end_date now;
  Some (fmap (M:=list) daily_amount items).

(** Whether a call reads the clock: [datetime.now()] is evaluated after
    [start_date] has been parsed, when [end_date] is false. *)
Definition reads_clock (start_date : string) (end_date : option string)
    : bool :=
  bool_decide (is_Some (strptime start_date "%d-%m-%Y"))
  && negb (truthy end_date).
End aggregator.

(** ** A reference instance of the library

    CPython's functions on the inputs the bank API produces: zero-padded
    [dd-mm-yyyy] dates and [dd.mm.yyyy HH:MM:SS] timestamps, and decimal
    literals made of an optional sign, digits and an optional fraction
    (converted to the nearest binary64 number, as [float] does).  It serves
    to run the program on concrete inputs; the theorems do not depend on
    it. *)

Module CPython.

Definition is_leap (year : Z) : bool :=
  bool_decide (year mod 4 = 0 ∧ (year mod 100 ≠ 0 ∨ year mod 400 = 0)).

Definition days_before_year (year : Z) : Z :=
  let y := year - 1 in y * 365 + y / 4 - y / 100 + y / 400.

Definition DAYS_IN_MONTH : list Z :=
  [-1; 31; 28; 31; 30; 31; 30; 31; 31; 30; 31; 30; 31].
Definition DAYS_BEFORE_MONTH : list Z :=
  [-1; 0; 31; 59; 90; 120; 151; 181; 212; 243; 273; 304; 334].

Definition days_in_month (year month : Z) : Z :=
  if bool_decide (month = 2) && is_leap year then 29
  else DAYS_IN_MONTH !!! Z.to_nat month.

Definition days_before_month (year month : Z) : Z :=
  DAYS_BEFORE_MONTH !!! Z.to_nat month
  + (if bool_decide (2 < month) && is_leap year then 1 else 0).

Definition ymd2ord (year month day : Z) : Date :=
  days_before_year year + days_before_month year month + day.

Definition DI400Y : Z := 146097.
Definition DI100Y : Z := 36524.
Definition DI4Y : Z := 1461.

Definition ord2ymd (n : Date) : Z * Z * Z :=
  let n := n - 1 in
  let '(n400, n) := (n / DI400Y, n mod DI400Y) in
  let year := n400 * 400 + 1 in
  let '(n100, n) := (n / DI100Y, n mod DI100Y) in
  let '(n4, n) := (n / DI4Y, n mod DI4Y) in
  let '(n1, n) := (n / 365, n mod 365) in
  let year := year + n100 * 100 + n4 * 4 + n1 in
  if bool_decide (n1 = 4 ∨ n100 = 4) then (year - 1, 12, 31)
  else
    let leapyear := bool_decide (n1 = 3 ∧ (n4 ≠ 24 ∨ n100 = 3)) in
    let month := Z.shiftr (n + 50) 5 in
    let preceding :=
      DAYS_BEFORE_MONTH !!! Z.to_nat month
      + (if bool_decide (2 < month) && leapyear then 1 else 0) in
    let '(month, preceding) :=
      if bool_decide (n < preceding) then
        (month - 1,
         preceding - (DAYS_IN_MONTH !!! Z.to_nat (month - 1)
                      + (if bool_decide (month - 1 = 2) && leapyear
                         then 1 else 0)))
      else (month, preceding) in
    (year, month, n - preceding + 1).

(** Decimal digits. *)
Definition digit (c : ascii) : option Z :=
  let n := Z.of_N (N_of_ascii c) in
  if bool_decide (48 ≤ n ≤ 57) then Some (n - 48) else None.

Fixpoint number (acc : Z) (cs : list ascii) : option Z :=
  match cs with
  | [] => Some acc
  | c :: cs => d ← digit c; number (10 * acc + d) cs
  end.

Definition valid_date (year month day : Z) : bool :=
  bool_decide (1 ≤ year ≤ 9999 ∧ 1 ≤ month ≤ 12
               ∧ 1 ≤ day ≤ days_in_month year month).

Definition parse_dmY (d1 d0 m1 m0 y3 y2 y1 y0 : ascii) : option Date :=
  day ← number 0 [d1; d0];
  month ← number 0 [m1; m0];
  year ← number 0 [y3; y2; y1; y0];
  if valid_date year month day then Some (ymd2ord year month day) else None.

Definition parse_HMS (h1 h0 m1 m0 s1 s0 : ascii) : option Z :=
  hour ← number 0 [h1; h0];
  minute ← number 0 [m1; m0];
  second ← number 0 [s1; s0];
  if bool_decide (hour < 24 ∧ minute < 60 ∧ second < 60)
  then Some (((hour * 60 + minute) * 60 + second) * 1000000) else None.

Definition strptime (data format : string) : option Datetime :=
  if String.eqb format "%d-%m-%Y" then
    match list_ascii_of_string data with
    | [d1; d0; "-"; m1; m0; "-"; y3; y2; y1; y0]%char =>
        date ← parse_dmY d1 d0 m1 m0 y3 y2 y1 y0;
        Some (mkDatetime date 0)
    | _ => None
    end
  else if String.eqb format "%d.%m.%Y %H:%M:%S" then
    match list_ascii_of_string data with
    | [d1; d0; "."; m1; m0; "."; y3; y2; y1; y0; " ";
       H1; H0; ":"; M1; M0; ":"; S1; S0]%char =>
        date ← parse_dmY d1 d0 m1 m0 y3 y2 y1 y0;
        time ← parse_HMS H1 H0 M1 M0 S1 S0;
        Some (mkDatetime date time)
    | _ => None
    end
  else None.

(** [sign digits [. digits]] as the nearest binary64 number. *)
Definition decimal (negative : bool) (mantissa : Z) (scale : nat) : float :=
  match mantissa with
  | Zpos m =>
      SF2Prim (SFdiv prec emax (S754_finite negative m 0)
                 (S754_finite false (Z.to_pos (10 ^ Z.of_nat scale)) 0))
  | _ => if negative then PrimFloat.neg_zero else PrimFloat.zero
  end.

(** The digits before and after the first point. *)
Fixpoint split_point (cs : list ascii) : list ascii * list ascii :=
  match cs with
  | [] => ([], [])
  | c :: cs =>
      if bool_decide (c = "."%char) then ([], cs)
      else let '(int_part, frac_part) := split_point cs in
           (c :: int_part, frac_part)
  end.

Definition unsigned_decimal (negative : bool) (cs : list ascii)
    : option float :=
  let '(int_part, frac_part) := split_point cs in
  if bool_decide (int_part ++ frac_part = []) then None
  else
    m ← number 0 (int_part ++ frac_part);
    Some (decimal negative m (length frac_part)).

Definition py_float (s : string) : option float :=
  match list_ascii_of_string s with
  | "-"%char :: cs => unsigned_decimal true cs
  | "+"%char :: cs => unsigned_decimal false cs
  | cs => unsigned_decimal false cs
  end.

Definition digit_char (d : Z) : ascii := ascii_of_N (Z.to_N (48 + d mod 10)).

Definition pad2 (n : Z) : string :=
  string_of_list_ascii [digit_char (n / 10); digit_char n].
Definition pad4 (n : Z) : string :=
  string_of_list_ascii
    [digit_char (n / 1000); digit_char (n / 100); digit_char (n / 10);
     digit_char n].

Definition strftime (d : Date) (format : string) : string :=
  if String.eqb format "%Y-%m-%d" then
    let '(year, month, day) := ord2ymd d in
    pad4 year +:+ "-" +:+ pad2 month +:+ "-" +:+ pad2 day
  else "".

Definition library : Library.
Proof.
  refine (Build_Library strptime py_float strftime _).
  intros s dt. unfold strptime. simpl String.eqb. cbv iota.
  repeat case_match; try discriminate.
  destruct (parse_dmY _ _ _ _ _ _ _ _); simpl; [|discriminate].
  by intros [= <-].
Defined.

End CPython.

(** ** The outside world: server, log, clock and files *)

(** The parsed JSON body of a response ([response.json()]). *)
Module Response.
Record t : Type := mk {
  status : string;
  transactions : list Transaction;
  exist_next_page : bool;
  next_page_id : string
}.
End Response.

Record Request : Type := mkRequest {
  url : string;
  headers : list (string * string)
}.

Inductive Level : Type := INFO | WARNING | ERROR.

(** The messages the program logs, by the statement that emits them. *)
Inductive Message : Type :=
  | FailedToFetch (data : Response.t)
      (* f"Failed to fetch transactions: {data}" *)
  | FetchedSoFar (n : nat)
      (* f"Fetched {len(transactions)} transactions so far." *)
  | ProcessingAccount (account : string)
  | NoTransactionsFound (account : string)
  | ReportGenerated (account file_name : string).

(** What is written to a report file. *)
Inductive FileBody : Type :=
  | CsvFile (fieldnames : list string) (rows : list DailyAmount)
      (* [writeheader()] then [writerows(daily_amounts)] *)
  | JsonFile (rows : list DailyAmount).
      (* [json.dump(daily_amounts, file, indent=4)] *)

Inductive exn : Type := ValueError | IndexError | OSError.

(** The state of the world around the program: the responses the server
    will give to the next requests, in order; the requests sent and the
    records logged so far, oldest first; the files on disk, and the names
    under which the file system lets no file be opened for writing (a
    missing directory, a refused permission, a name too long); the clock,
    as the readings [datetime.now()] will return and the number already
    taken. *)
Record World : Type := mkWorld {
  network : list Response.t;
  sent : list Request;
  log : list (Level * Message);
  files : gmap string FileBody;
  refused : string → bool;
  clock : nat → Datetime;
  clock_reads : nat
}.

Definition set_network (responses : list Response.t) (w : World) : World :=
  mkWorld responses (sent w) (log w) (files w) (refused w) (clock w)
    (clock_reads w).

Definition send (r : Request) (w : World) : World :=
  mkWorld (network w) (sent w ++ [r]) (log w) (files w) (refused w) (clock w)
    (clock_reads w).

Definition logging (l : Level) (m : Message) (w : World) : World :=
  mkWorld (network w) (sent w) (log w ++ [(l, m)]) (files w) (refused w)
    (clock w) (clock_reads w).

(** Whether a name holds the NUL character. *)
Definition has_nul (file_name : string) : bool :=
  existsb (Ascii.eqb "000"%char) (list_ascii_of_string file_name).

(** What [open(file_name, "w")] raises, if anything: a [ValueError] for a
    name with a NUL character (the name does not reach the file system),
    an [OSError] when the file system refuses the name. *)
Definition open_w (file_name : string) (w : World) : option exn :=
  if has_nul file_name then Some ValueError
  else if refused w file_name then Some OSError
  else None.

(** The writes to a file opened with [open(file_name, "w")]: the file is
    created or replaced. *)
Definition write_file (file_name : string) (body : FileBody) (w : World)
    : World :=
  mkWorld (network w) (sent w) (log w) (<[file_name := body]> (files w))
    (refused w) (clock w) (clock_reads w).

Definition datetime_now (w : World) : Datetime := clock w (clock_reads w).

Definition tick (w : World) : World :=
  mkWorld (network w) (sent w) (log w) (files w) (refused w) (clock w)
    (S (clock_reads w)).

(** How a call ends: it returns, it raises, or it waits forever for a
    response that does not come. *)
Inductive Outcome (A : Type) : Type :=
  | Returns (a : A) (w : World)
  | Raises (e : exn) (w : World)
  | Blocks (w : World).
Arguments Returns {A} a w.
Arguments Raises {A} e w.
Arguments Blocks {A} w.

(** ** get_transactions *)

Definition PRIVATBANK_TX_STATEMENTS_URL : string :=
  "https://acp.privatbank.ua/api/statements/transactions".

(** The request of one iteration. *)
Definition statements_request (account_number start_date end_date : string)
    (follow_id : option string) (headers : list (string * string))
    : Request :=
  {| url := PRIVATBANK_TX_STATEMENTS_URL
            +:+ "?acc=" +:+ account_number
            +:+ "&startDate=" +:+ start_date
            +:+ "&endDate=" +:+ end_date
            +:+ "&followId="
            +:+ (if truthy follow_id then default "" follow_id else "");
     headers := headers |}.

(** [[t for t in data["transactions"] if t["PR_PR"] == "r"]] *)
Definition confirmed (ts : list Transaction) : list Transaction :=
  filter (λ t, PR_PR t = "r") ts.

(** The [while True] loop, by recursion on the responses still to come;
    [transactions] and [follow_id] are the loop's variables. *)
Fixpoint get_transactions_loop (responses : list Response.t)
    (account_number start_date end_date : string)
    (headers : list (string * string))
    (transactions : list Transaction) (follow_id : option string)
    (w : World) : Outcome (list Transaction) :=
  let w :=
    send (statements_request account_number start_date end_date follow_id
            headers) w in
  match responses with
  | [] => Blocks w
  | data :: responses =>
      let w := set_network responses w in
      if decide (Response.status data ≠ "SUCCESS") then
        Returns transactions (logging ERROR (FailedToFetch data) w)
      else
        let transactions :=
          transactions ++ confirmed (Response.transactions data) in
        let w := logging INFO (FetchedSoFar (length transactions)) w in
        if negb (Response.exist_next_page data) then Returns transactions w
        else
          get_transactions_loop responses account_number start_date end_date
            headers transactions (Some (Response.next_page_id data)) w
  end.

Definition get_transactions (account_number start_date end_date token : string)
    (w : World) : Outcome (list Transaction) :=
  let transactions := [] in
  let follow_id := None in
  let headers :=
    [("Content-Type", "application/json;utf8"); ("token", token)] in
  get_transactions_loop (network w) account_number start_date end_date
    headers transactions follow_id w.

(** ** generate_report *)

(** [str.lower] on the letters that matter for the comparison with
    ["csv"]: the ASCII capitals. *)
Definition lower_ascii (c : ascii) : ascii :=
  let n := N_of_ascii c in
  if bool_decide (65 ≤ n ≤ 90)%N then ascii_of_N (n + 32) else c.

Fixpoint lower (s : string) : string :=
  match s with
  | EmptyString => EmptyString
  | String c s => String (lower_ascii c) (lower s)
  end.

(** [daily_amounts[0].keys()] *)
Definition keys (row : DailyAmount) : list string :=
  ["date"; "money_in"; "money_out"; "money_in_UAH"; "money_out_UAH"].

Section report.
Context `{Library}.

Definition report_file_name (account_name account start_date end_date
    ext : string) : string :=
  account_name +:+ "_" +:+ account +:+ "_report_" +:+ start_date
  +:+ "_" +:+ end_date +:+ ext.

(** The part of the loop body after the [continue]. *)
Definition write_report (account start_date end_date format : string)
    (transactions : list Transaction) (w : World) : Outcome unit :=
  let account_name :=
    match transactions with
    | t :: _ => default "Unknown" (AUT_MY_NAM t)
    | [] => "Unknown"
    end in
  let now := datetime_now w in
  let w := if reads_clock start_date (Some end_date) then tick w else w in
  match calculate_daily_amounts transactions start_date (Some end_date)
          now with
  | None => Raises ValueError w
  | Some daily_amounts =>
      if decide (lower format = "csv") then
        let file_name :=
          report_file_name account_name account start_date end_date
            ".csv" in
        match open_w file_name w with
        | Some e => Raises e w
        | None =>
            match daily_amounts with
            | [] =>
                Raises IndexError (write_file file_name (CsvFile [] []) w)
            | row :: _ =>
                let w :=
                  write_file file_name (CsvFile (keys row) daily_amounts)
                    w in
                Returns tt
                  (logging INFO (ReportGenerated account file_name) w)
            end
        end
      else
        let file_name :=
          report_file_name account_name account start_date end_date
            ".json" in
        match open_w file_name w with
        | Some e => Raises e w
        | None =>
            let w := write_file file_name (JsonFile daily_amounts) w in
            Returns tt (logging INFO (ReportGenerated account file_name) w)
        end
  end.

(** [accounts] is given in the order in which the [for] loop visits it. *)
Fixpoint generate_report (accounts : list string)
    (start_date end_date token format : string) (w : World)
    : Outcome unit :=
  match accounts with
  | [] => Returns tt w
  | account :: accounts =>
      let w := logging INFO (ProcessingAccount account) w in
      match get_transactions account start_date end_date token w with
      | Returns transactions w =>
          match transactions with
          | [] =>
              let w := logging WARNING (NoTransactionsFound account) w in
              generate_report accounts start_date end_date token format w
          | _ :: _ =>
              match write_report account start_date end_date format
                      transactions w with
              | Returns _ w =>
                  generate_report accounts start_date end_date token
                    format w
              | Raises e w => Raises e w
              | Blocks w => Blocks w
              end
          end
      | Raises e w => Raises e w
      | Blocks w => Blocks w
      end
  end.
End report.

(** ** Inputs of the examples *)

(** The transactions of the test suite. *)
Definition example_transactions : list Transaction :=
  [ {| DATE_TIME_DAT_OD_TIM_P := "01.03.2024 12:00:00"; SUM := "100.00";
       SUM_E := "2700.00"; TRANTYPE := "C"; PR_PR := "r";
       AUT_MY_NAM := None |};
    {| DATE_TIME_DAT_OD_TIM_P := "02.03.2024 12:00:00"; SUM := "200.00";
       SUM_E := "5400.00"; TRANTYPE := "D"; PR_PR := "r";
       AUT_MY_NAM := None |} ].


(** A transaction after the range of the test suite, and a credit whose
    amounts are negative. *)
Definition late_transaction : Transaction :=
  {| DATE_TIME_DAT_OD_TIM_P := "05.03.2024 09:30:00"; SUM := "10.00";
     SUM_E := "270.00"; TRANTYPE := "C"; PR_PR := "r"; AUT_MY_NAM := None |}.

Definition negative_credit : Transaction :=
  {| DATE_TIME_DAT_OD_TIM_P := "01.03.2024 12:00:00"; SUM := "-5.00";
     SUM_E := "-135.00"; TRANTYPE := "C"; PR_PR := "r";
     AUT_MY_NAM := None |}.

(** Two transactions of one day, at its first and at its last second. *)
Definition same_day_transactions : list Transaction :=
  [ {| DATE_TIME_DAT_OD_TIM_P := "01.03.2024 00:00:00"; SUM := "0.10";
       SUM_E := "2.70"; TRANTYPE := "C"; PR_PR := "r"; AUT_MY_NAM := None |};
    {| DATE_TIME_DAT_OD_TIM_P := "01.03.2024 23:59:59"; SUM := "0.20";
       SUM_E := "5.40"; TRANTYPE := "C"; PR_PR := "r"; AUT_MY_NAM := None |} ].

(** A credit and a debit of one day. *)
Definition credit_and_debit : list Transaction :=
  [ {| DATE_TIME_DAT_OD_TIM_P := "01.03.2024 09:00:00"; SUM := "100.00";
       SUM_E := "2700.00"; TRANTYPE := "C"; PR_PR := "r";
       AUT_MY_NAM := None |};
    {| DATE_TIME_DAT_OD_TIM_P := "01.03.2024 18:00:00"; SUM := "30.00";
       SUM_E := "810.00"; TRANTYPE := "D"; PR_PR := "r";
       AUT_MY_NAM := None |} ].

(** A clock reading, and the midnights of three days of March 2024. *)
Definition noon : Datetime := mkDatetime 738950 43200000000.
Definition march_1 : Datetime := mkDatetime 738946 0.
Definition march_2 : Datetime := mkDatetime 738947 0.
Definition march_3 : Datetime := mkDatetime 738948 0.

(** A world in which nothing has happened yet and the server will answer
    with [responses]; the working directory has no subdirectory, so that a
    name with a [/] cannot be opened. *)
Definition has_slash (file_name : string) : bool :=
  existsb (Ascii.eqb "/"%char) (list_ascii_of_string file_name).
Definition fresh_world (responses : list Response.t) : World :=
  mkWorld responses [] [] ∅ has_slash (λ _, noon) 0.

(** The response of the test suite, a first page that announces a second
    one, a page with an unconfirmed transaction, and a failure. *)
Definition single_page : Response.t :=
  Response.mk "SUCCESS" example_transactions false "".
Definition first_page : Response.t :=
  Response.mk "SUCCESS" example_transactions true "page-2".
Definition unconfirmed_transaction : Transaction :=
  {| DATE_TIME_DAT_OD_TIM_P := "02.03.2024 08:00:00"; SUM := "7.00";
     SUM_E := "189.00"; TRANTYPE := "D"; PR_PR := "p"; AUT_MY_NAM := None |}.
Definition mixed_page : Response.t :=
  Response.mk "SUCCESS" (unconfirmed_transaction :: example_transactions)
    false "".
Definition error_response : Response.t := Response.mk "ERROR" [] false "".


(** ** Notions used to state the properties *)

Section notions.
Context `{Library}.

(** The calendar day of a transaction: the day of its timestamp, the
    time of day dropped. *)
Definition day_of (t : Transaction) : option Date :=
  dt_date <$> strptime (DATE_TIME_DAT_OD_TIM_P t) "%d.%m.%Y %H:%M:%S".

(** The fields the aggregation parses are well-formed. *)
Definition parses (t : Transaction) : Prop :=
  is_Some (day_of t) ∧ is_Some (py_float (SUM t))
  ∧ is_Some (py_float (SUM_E t)).

(** The transactions of day [d] with direction code ["C"], and the
    others of that day, in the order of the list. *)
Definition inflows (d : Date) (ts : list Transaction) : list Transaction :=
  filter (λ t, day_of t = Some d ∧ TRANTYPE t = "C") ts.
Definition outflows (d : Date) (ts : list Transaction) : list Transaction :=
  filter (λ t, day_of t = Some d ∧ TRANTYPE t ≠ "C") ts.

(** The float sum of a field over transactions, added from left to right
    onto [init], as the loop adds them. *)
Definition total_from (init : float) (field : Transaction → string)
    (ts : list Transaction) : float :=
  foldl PrimFloat.add init (omap (λ t, py_float (field t)) ts).
Definition total : (Transaction → string) → list Transaction → float :=
  total_from 0.

(** The record of day [d] after the transactions [ts] have been added to
    the record [r]. *)
Definition accumulate (d : Date) (r : Totals) (ts : list Transaction)
    : Totals :=
  {| money_in := total_from (money_in r) SUM (inflows d ts);
     money_out := total_from (money_out r) SUM (outflows d ts);
     money_in_UAH := total_from (money_in_UAH r) SUM_E (inflows d ts);
     money_out_UAH := total_from (money_out_UAH r) SUM_E (outflows d ts) |}.

(** The effect of one parsed transaction on the record of its day. *)
Definition apply_amounts (t : Transaction) (a au : float) (r : Totals)
    : Totals :=
  if decide (TRANTYPE t = "C")
  then add_money_in_UAH au (add_money_in a r)
  else add_money_out_UAH au (add_money_out a r).

(** The effect of a transaction on the entry of day [d], present or not. *)
Definition step (d : Date) (o : option Totals) (t : Transaction)
    : option Totals :=
  if decide (day_of t = Some d) then
    Some (apply_amounts t (default 0%float (py_float (SUM t)))
            (default 0%float (py_float (SUM_E t)))
            (default zero_totals o))
  else o.

(** The end of the nominal range: the parsed [end_date], or the clock
    reading when [end_date] is false. *)
Definition effective_end (end_date : option string) (now : Datetime)
    : option Datetime :=
  if truthy end_date then strptime (default "" end_date) "%d-%m-%Y"
  else Some now.

(** The first day of the nominal range and its number of days, as the
    program computes them from the parsed bounds. *)
Definition day_count (start end_ : Datetime) : Z :=
  days (datetime_sub end_ start) + 1.

(** A float that compares [>= 0]. *)
Definition nonneg (x : float) : Prop := (0 <=? x)%float = true.

Definition nonneg_totals (r : Totals) : Prop :=
  nonneg (money_in r) ∧ nonneg (money_out r)
  ∧ nonneg (money_in_UAH r) ∧ nonneg (money_out_UAH r).

(** Both amounts of a transaction parse to floats that compare [>= 0]. *)
Definition nonneg_amounts (t : Transaction) : Prop :=
  ∃ a au, py_float (SUM t) = Some a ∧ py_float (SUM_E t) = Some au
          ∧ nonneg a ∧ nonneg au.

(** The same transaction with another confirmation flag. *)
Definition with_PR_PR (flag : Transaction → string) (t : Transaction)
    : Transaction :=
  {| DATE_TIME_DAT_OD_TIM_P := DATE_TIME_DAT_OD_TIM_P t;
     SUM := SUM t; SUM_E := SUM_E t; TRANTYPE := TRANTYPE t;
     PR_PR := flag t; AUT_MY_NAM := AUT_MY_NAM t |}.
End notions.

(** Notions about the pagination. *)

(** A page after which the loop goes on, a page after which it ends, and a
    response that reports a failure. *)
Definition continuing (data : Response.t) : Prop :=
  Response.status data = "SUCCESS" ∧ Response.exist_next_page data = true.
Definition is_last_page (data : Response.t) : Prop :=
  Response.status data = "SUCCESS" ∧ Response.exist_next_page data = false.
Definition failed (data : Response.t) : Prop :=
  Response.status data ≠ "SUCCESS".

(** The confirmed transactions of pages, concatenated in the order of the
    pages. *)
Definition pages_transactions (pages : list Response.t) : list Transaction :=
  pages ≫= (λ data, confirmed (Response.transactions data)).

(** The [followId] of the requests that fetch the pages [pages], the first
    request carrying [follow_id], and the [followId] of the request after
    them. *)
Fixpoint follow_ids (follow_id : option string) (pages : list Response.t)
    : list (option string) :=
  match pages with
  | [] => []
  | data :: pages =>
      follow_id :: follow_ids (Some (Response.next_page_id data)) pages
  end.
Fixpoint next_follow_id (follow_id : option string) (pages : list Response.t)
    : option string :=
  match pages with
  | [] => follow_id
  | data :: pages => next_follow_id (Some (Response.next_page_id data)) pages
  end.

(** The records logged while the successful pages [pages] are received,
    [n] transactions being already accumulated. *)
Fixpoint fetched_logs (n : nat) (pages : list Response.t)
    : list (Level * Message) :=
  match pages with
  | [] => []
  | data :: pages =>
      let n := (n + length (confirmed (Response.transactions data)))%nat in
      (INFO, FetchedSoFar n) :: fetched_logs n pages
  end.

(** The headers of every request. *)
Definition request_headers (token : string) : list (string * string) :=
  [("Content-Type", "application/json;utf8"); ("token", token)].

(** The successful responses among [pages]. *)
Definition successful (pages : list Response.t) : list Response.t :=
  filter (λ data, Response.status data = "SUCCESS") pages.

(** The binary64 values that compare [>= 0]: zeros, positive finite
    numbers and [+inf]. *)
Definition nonneg_sf (s : spec_float) : bool :=
  match s with
  | S754_zero _ => true
  | S754_infinity false => true
  | S754_finite false _ _ => true
  | _ => false
  end.

(** ** Notions for the further properties *)

(** The world in which a call ends, however it ends. *)
Definition outcome_world {A : Type} (o : Outcome A) : World :=
  match o with
  | Returns _ w => w
  | Raises _ w => w
  | Blocks w => w
  end.

(** A response after which the loop stops. *)
Definition ends_loop (data : Response.t) : Prop :=
  is_last_page data ∨ failed data.

(** The extension and the content of a report, by the format asked for. *)
Definition report_ext (format : string) : string :=
  if decide (lower format = "csv") then ".csv" else ".json".
Definition report_body (format : string) (rows : list DailyAmount)
    : FileBody :=
  if decide (lower format = "csv")
  then CsvFile ["date"; "money_in"; "money_out"; "money_in_UAH";
                "money_out_UAH"] rows
  else JsonFile rows.

(** The world after the clock has been read, if the aggregation reads it. *)
Definition after_clock `{Library} (start_date end_date : string)
    (w : World) : World :=
  if reads_clock start_date (Some end_date) then tick w else w.

(** The records logged for accounts whose only response is a failure. *)
Definition skipped_logs (account : string) (bad : Response.t)
    : list (Level * Message) :=
  [ (INFO, ProcessingAccount account); (ERROR, FailedToFetch bad);
    (WARNING, NoTransactionsFound account) ].

(** [w'] is a later state of [w]: requests and log records were only
    appended, responses only read from the front, files only added or
    replaced. *)
Definition extends (w w' : World) : Prop :=
  sent w `prefix_of` sent w'
  ∧ log w `prefix_of` log w'
  ∧ network w' `suffix_of` network w
  ∧ dom (files w) ⊆ dom (files w').

(** ** read_token_from_file and the main program

    A character of a [string] stands for a character of the text;
    [isspace] is [str.isspace] on one character, and [read_text] gives the
    text [open(file_path, "r")] and [file.read()] produce, or [None] when
    one of them raises. *)

(** [str.lstrip()]: the text without its leading whitespace. *)
Fixpoint lstrip (isspace : ascii → bool) (cs : list ascii) : list ascii :=
  match cs with
  | [] => []
  | c :: cs' => if isspace c then lstrip isspace cs' else cs
  end.

(** [str.rstrip()] *)
Definition rstrip (isspace : ascii → bool) (cs : list ascii) : list ascii :=
  reverse (lstrip isspace (reverse cs)).

(** [str.strip()] *)
Definition strip (isspace : ascii → bool) (s : string) : string :=
  string_of_list_ascii
    (rstrip isspace (lstrip isspace (list_ascii_of_string s))).

(** The ways in which the program exits before any report: after
    [parser.error] (usage message, status 2) and after a token file that
    cannot be read (error logged, [sys.exit(1)]). *)
Inductive Exit : Type := UsageError | TokenFileError.

Definition exit_status (e : Exit) : Z :=
  match e with
  | UsageError => 2
  | TokenFileError => 1
  end.

Inductive Startup (A : Type) : Type :=
  | Proceed (a : A)
  | SysExit (e : Exit).
Arguments Proceed {A} a.
Arguments SysExit {A} e.

Definition read_token_from_file (isspace : ascii → bool)
    (read_text : string → option string) (file_path : string)
    : Startup string :=
  match read_text file_path with
  | Some content => Proceed (strip isspace content)
  | None => SysExit TokenFileError
  end.

(** The namespace [parser.parse_args()] returns; [accounts] in the order
    in which the set is iterated. *)
Module Args.
Record t : Type := mk {
  start_date : string;
  end_date : string;
  format : string;
  token : string;
  token_file : string;
  accounts : list string
}.
End Args.

(** The token the program goes on with. *)
Definition resolve_token (isspace : ascii → bool)
    (read_text : string → option string) (args : Args.t) : Startup string :=
  if negb (truthy (Some (Args.token args)))
     && negb (truthy (Some (Args.token_file args)))
  then SysExit UsageError
  else if truthy (Some (Args.token_file args))
  then read_token_from_file isspace read_text (Args.token_file args)
  else Proceed (Args.token args).

Inductive MainOutcome : Type :=
  | Exited (e : Exit)
  | Ran (o : Outcome unit).

(** The main program after the arguments have been parsed. *)
Definition main `{Library} (isspace : ascii → bool)
    (read_text : string → option string) (args : Args.t) (w : World)
    : MainOutcome :=
  match resolve_token isspace read_text args with
  | SysExit e => Exited e
  | Proceed token =>
      Ran (generate_report (Args.accounts args) (Args.start_date args)
             (Args.end_date args) token (Args.format args) w)
  end.

(** [d.replace(day=day)], through the calendar of [CPython]. *)
Definition replace_day (d : Date) (day : Z) : Date :=
  let '(year, month, _) := CPython.ord2ymd d in
  CPython.ymd2ord year month day.

(** The day of the default of [--start-date]:
    [(datetime.now().replace(day=1) - timedelta(days=1)).replace(day=1)]. *)
Definition default_start_day (now : Datetime) : Date :=
  replace_day (replace_day (dt_date now) 1 - 1) 1.

(** The first day of the month before the month of a date. *)
Definition first_of_previous_month (ymd : Z * Z * Z) : Z * Z * Z :=
  let '(year, month, _) := ymd in
  if bool_decide (month = 1) then (year - 1, 12, 1)
  else (year, month - 1, 1).

(** ASCII whitespace, for the examples. *)
Definition ascii_isspace (c : ascii) : bool :=
  let n := N_of_ascii c in
  bool_decide (9 ≤ n ≤ 13 ∨ 28 ≤ n ≤ 32)%N.

(** A text made of whitespace only, and a text without whitespace at
    either end. *)
Definition blank (isspace : ascii → bool) (s : string) : Prop :=
  Forall (λ c, isspace c = true) (list_ascii_of_string s).
Definition trimmed (isspace : ascii → bool) (s : string) : Prop :=
  (∀ c, head (list_ascii_of_string s) = Some c → isspace c = false)
  ∧ (∀ c, last (list_ascii_of_string s) = Some c → isspace c = false).

(** Notions about the calendar, for the default start date. *)

(** The month and the day of the [n]-th day (from 0) of a year: the last
    steps of [CPython.ord2ymd]. *)
Definition month_day (leapyear : bool) (n : Z) : Z * Z :=
  let month := Z.shiftr (n + 50) 5 in
  let preceding :=
    CPython.DAYS_BEFORE_MONTH !!! Z.to_nat month
    + (if bool_decide (2 < month) && leapyear then 1 else 0) in
  let '(month, preceding) :=
    if bool_decide (n < preceding) then
      (month - 1,
       preceding - (CPython.DAYS_IN_MONTH !!! Z.to_nat (month - 1)
                    + (if bool_decide (month - 1 = 2) && leapyear
                       then 1 else 0)))
    else (month, preceding) in
  (month, n - preceding + 1).

(** The year of a day, from its numbers of 400-year, 100-year and 4-year
    cycles and of years gone by. *)
Definition year_of_parts (n400 n100 n4 n1 : Z) : Z :=
  n400 * 400 + 1 + n100 * 100 + n4 * 4 + n1.

(** Iteration of a test over [n, n + fuel). *)
Fixpoint all_from (f : Z → bool) (fuel : nat) (n : Z) : bool :=
  match fuel with
  | O => true
  | S fuel => f n && all_from f fuel (n + 1)
  end.

(** [CPython.days_before_month], by the leap flag of the year. *)
Definition dbm_flag (leap : bool) (month : Z) : Z :=
  CPython.DAYS_BEFORE_MONTH !!! Z.to_nat month
  + (if bool_decide (2 < month) && leap then 1 else 0).

(** The test that [month_day] answers with a date of the right day of the
    year. *)
Definition month_day_ok (leap : bool) (r : Z) : bool :=
  let md := month_day leap r in
  (1 <=? md.1) && (md.1 <=? 12) && (1 <=? md.2) && (md.2 <=? 31)
  && (dbm_flag leap md.1 + md.2 =? r + 1).

(** A date [400 * k] years later. *)
Definition shift_years (k : Z) (ymd : Z * Z * Z) : Z * Z * Z :=
  (ymd.1.1 + 400 * k, ymd.1.2, ymd.2).

(** The first of a month and the day before it, for one month. *)
Definition month_ok (y m : Z) : bool :=
  bool_decide (CPython.ord2ymd (CPython.ymd2ord y m 1) = (y, m, 1))
  && (bool_decide (y = 1 ∧ m = 1)
      || bool_decide
           ((CPython.ord2ymd (CPython.ymd2ord y m 1 - 1)).1
            = (first_of_previous_month (y, m, 1)).1
            ∧ CPython.ymd2ord (first_of_previous_month (y, m, 1)).1.1
                (first_of_previous_month (y, m, 1)).1.2 1
              < CPython.ymd2ord y m 1)).

(** Inputs of the examples of the further properties. *)

Definition credit_march_1 : Transaction :=
  {| DATE_TIME_DAT_OD_TIM_P := "01.03.2024 12:00:00"; SUM := "100.00";
     SUM_E := "2700.00"; TRANTYPE := "C"; PR_PR := "r"; AUT_MY_NAM := None |}.
Definition debit_march_2 : Transaction :=
  {| DATE_TIME_DAT_OD_TIM_P := "02.03.2024 12:00:00"; SUM := "200.00";
     SUM_E := "5400.00"; TRANTYPE := "D"; PR_PR := "r"; AUT_MY_NAM := None |}.

Definition late_rows : list DailyAmount :=
  [ {| date := "2024-03-01"; totals := zero_totals |};
    {| date := "2024-03-02"; totals := zero_totals |};
    {| date := "2024-03-05"; totals := mkTotals 10 0 270 0 |} ].

(** A transaction whose timestamp is not in the format of the API, the
    page that holds it, and the holder's name on a transaction. *)
Definition malformed_transaction : Transaction :=
  {| DATE_TIME_DAT_OD_TIM_P := "2024-03-01T12:00:00"; SUM := "100.00";
     SUM_E := "2700.00"; TRANTYPE := "C"; PR_PR := "r";
     AUT_MY_NAM := Some "ACME" |}.
Definition malformed_page : Response.t :=
  Response.mk "SUCCESS" [malformed_transaction] false "".

(** A transaction whose holder's name has a [/] in it, and its page. *)
Definition slash_named_transaction : Transaction :=
  {| DATE_TIME_DAT_OD_TIM_P := "01.03.2024 12:00:00"; SUM := "100.00";
     SUM_E := "2700.00"; TRANTYPE := "C"; PR_PR := "r";
     AUT_MY_NAM := Some "A/B" |}.
Definition slash_named_page : Response.t :=
  Response.mk "SUCCESS" [slash_named_transaction] false "".

(** The worlds after the fetch of the single page, of the mixed page and
    of the malformed page for account ["123456"]. *)
Definition fetched (page : Response.t) (count : nat) (w : World) : World :=
  logging INFO (FetchedSoFar count)
    (set_network []
       (send (statements_request "123456" "01-03-2024" "02-03-2024" None
                [("Content-Type", "application/json;utf8");
                 ("token", "token")]) w)).

(** A token file that ends with a newline, and the arguments that name
    it beside a token. *)
Definition token_text : string := "secret" +:+ String "010"%char EmptyString.
Definition token_disk (file_path : string) : option string :=
  if String.eqb file_path "token.txt" then Some token_text else None.
Definition example_args : Args.t :=
  Args.mk "01-03-2024" "02-03-2024" "csv" "ignored" "token.txt" ["123456"].

(** * Floating-point addition keeps sums of non-negative amounts
      non-negative *)

Section float_facts.
Lemma nonneg_iff x : nonneg x ↔ nonneg_sf (Prim2SF x) = true.
Proof.
  unfold nonneg. rewrite leb_spec.
  change (Prim2SF 0) with (S754_zero false).
  destruct (Prim2SF x) as [s|s| |s m e]; try destruct s; simpl;
    intuition congruence.
Qed.

Lemma shr_1_nonneg mrs : 0 ≤ shr_m mrs → 0 ≤ shr_m (shr_1 mrs).
Proof.
  destruct mrs as [m r s]. simpl.
  destruct m as [|p|p]; try destruct p; simpl; lia.
Qed.

Lemma iter_pos_shr_1_nonneg n mrs :
  0 ≤ shr_m mrs → 0 ≤ shr_m (SpecFloat.iter_pos shr_1 n mrs).
Proof.
  revert mrs. induction n as [n IH|n IH|]; intros mrs Hm; simpl.
  - apply IH, IH, shr_1_nonneg, Hm.
  - apply IH, IH, Hm.
  - apply shr_1_nonneg, Hm.
Qed.

Lemma shr_fexp_nonneg m e l :
  0 ≤ m → 0 ≤ shr_m (shr_fexp prec emax m e l).1.
Proof.
  intros Hm. unfold shr_fexp, shr.
  assert (Hr : 0 ≤ shr_m (shr_record_of_loc m l)).
  { destruct l as [|[]]; simpl; exact Hm. }
  destruct (_ - e); simpl; auto using iter_pos_shr_1_nonneg.
Qed.

Lemma round_nearest_even_nonneg m l : 0 ≤ m → 0 ≤ round_nearest_even m l.
Proof.
  intros Hm. unfold round_nearest_even.
  destruct l as [|[]]; try destruct (Z.even m); lia.
Qed.

Lemma binary_round_aux_nonneg m e l :
  0 ≤ m → nonneg_sf (binary_round_aux prec emax false m e l) = true.
Proof.
  intros Hm. unfold binary_round_aux.
  pose proof (shr_fexp_nonneg m e l Hm) as H1.
  destruct (shr_fexp prec emax m e l) as [mrs' e']. simpl in H1.
  pose proof (shr_fexp_nonneg _ e' loc_Exact
    (round_nearest_even_nonneg _ (loc_of_shr_record mrs') H1)) as H2.
  destruct (shr_fexp prec emax _ e' loc_Exact) as [mrs'' e'']. simpl in H2.
  destruct (shr_m mrs'') as [|p|p]; simpl.
  - reflexivity.
  - destruct (e'' <=? _); reflexivity.
  - lia.
Qed.

Lemma SFadd_nonneg x y :
  nonneg_sf x = true → nonneg_sf y = true → nonneg_sf (SF64add x y) = true.
Proof.
  destruct x as [sx|sx| |sx mx ex], y as [sy|sy| |sy my ey];
    try destruct sx; try destruct sy; simpl; try congruence; intros _ _.
  unfold binary_normalize.
  destruct (shl_align mx ex (Z.min ex ey)) as [mx' ex'].
  destruct (shl_align my ey (Z.min ex ey)) as [my' ey']. simpl.
  unfold binary_round.
  destruct (shl_align _ _ _) as [mz ez].
  apply binary_round_aux_nonneg. lia.
Qed.

Lemma nonneg_add x y : nonneg x → nonneg y → nonneg (x + y)%float.
Proof. rewrite !nonneg_iff, add_spec. apply SFadd_nonneg. Qed.

Lemma nonneg_zero : nonneg 0.
Proof. reflexivity. Qed.

Lemma nonneg_foldl_add (init : float) (xs : list float) :
  nonneg init → Forall nonneg xs → nonneg (foldl PrimFloat.add init xs).
Proof.
  intros Hi Hxs. revert init Hi.
  induction Hxs as [|x xs Hx _ IH]; intros init Hi; simpl; [done|].
  apply IH. by apply nonneg_add.
Qed.
End float_facts.

(** * Properties of calculate_daily_amounts *)

Section aggregator_facts.
Context `{Library}.
Implicit Types (m : gmap Z Totals) (t : Transaction) (d : Date)
  (ts : list Transaction) (r : Totals).

Lemma update_day_twice m d f g :
  update_day (update_day m d f) d g
  = <[d := g (f (default zero_totals (m !! d)))]> m.
Proof.
  unfold update_day. by rewrite lookup_insert_eq, insert_insert_eq.
Qed.

Lemma add_transaction_Some m t m' :
  add_transaction m t = Some m' ↔
  ∃ dt a au,
    strptime (DATE_TIME_DAT_OD_TIM_P t) "%d.%m.%Y %H:%M:%S" = Some dt
    ∧ py_float (SUM t) = Some a ∧ py_float (SUM_E t) = Some au
    ∧ m' = <[dt_date dt :=
               apply_amounts t a au (default zero_totals (m !! dt_date dt))]> m.
Proof.
  unfold add_transaction, apply_amounts. split.
  - intros Hm.
    destruct (strptime _ _) as [dt|]; [|done].
    destruct (py_float (SUM t)) as [a|]; [|done].
    destruct (py_float (SUM_E t)) as [au|]; [|done].
    simpl in Hm. exists dt, a, au. repeat split.
    destruct (decide _); rewrite update_day_twice in Hm; congruence.
  - intros (dt & a & au & -> & -> & -> & ->). simpl.
    destruct (decide _); by rewrite update_day_twice.
Qed.

Lemma add_transaction_parses m t m' :
  add_transaction m t = Some m' → parses t.
Proof.
  rewrite add_transaction_Some. intros (dt & a & au & Hdt & Ha & Hau & _).
  unfold parses, day_of. rewrite Hdt, Ha, Hau. eauto.
Qed.

Lemma add_transactions_parses m ts m' :
  add_transactions m ts = Some m' → Forall parses ts.
Proof.
  revert m. induction ts as [|t ts IH]; intros m; simpl; [done|].
  destruct (add_transaction m t) as [m1|] eqn:Ht; [|done]. simpl.
  intros Hm. constructor; eauto using add_transaction_parses.
Qed.

Lemma add_transaction_is_Some m t :
  parses t → is_Some (add_transaction m t).
Proof.
  unfold parses, day_of. intros ([d Hd] & [a Ha] & [au Hau]).
  destruct (strptime _ _) as [dt|] eqn:Hdt; [|done].
  eexists. apply add_transaction_Some. eauto 10.
Qed.

Lemma add_transactions_is_Some m ts :
  Forall parses ts → is_Some (add_transactions m ts).
Proof.
  intros Hts. revert m. induction Hts as [|t ts Ht _ IH]; intros m; simpl.
  - eauto.
  - destruct (add_transaction_is_Some m t Ht) as [m1 ->]. apply IH.
Qed.

Lemma add_transactions_lookup m ts m' d :
  add_transactions m ts = Some m' → m' !! d = foldl (step d) (m !! d) ts.
Proof.
  revert m. induction ts as [|t ts IH]; intros m; simpl.
  - by intros [= ->].
  - destruct (add_transaction m t) as [m1|] eqn:Ht; [|done]. simpl.
    intros Hm. rewrite (IH _ Hm). f_equal.
    apply add_transaction_Some in Ht
      as (dt & a & au & Hdt & Ha & Hau & ->).
    unfold step, day_of. rewrite Hdt, Ha, Hau. simpl.
    destruct (decide (Some (dt_date dt) = Some d)) as [[= <-]|Hne].
    + by rewrite lookup_insert_eq.
    + rewrite lookup_insert_ne; [done|congruence].
Qed.

Lemma inflows_cons d t ts :
  inflows d (t :: ts)
  = if decide (day_of t = Some d ∧ TRANTYPE t = "C")
    then t :: inflows d ts else inflows d ts.
Proof. unfold inflows. by rewrite filter_cons. Qed.

Lemma outflows_cons d t ts :
  outflows d (t :: ts)
  = if decide (day_of t = Some d ∧ TRANTYPE t ≠ "C")
    then t :: outflows d ts else outflows d ts.
Proof. unfold outflows. by rewrite filter_cons. Qed.

Lemma accumulate_nil d r : accumulate d r [] = r.
Proof. by destruct r. Qed.

Lemma accumulate_cons_other d r t ts :
  day_of t ≠ Some d → accumulate d r (t :: ts) = accumulate d r ts.
Proof.
  intros Hne. unfold accumulate. rewrite inflows_cons, outflows_cons.
  by rewrite !decide_False by tauto.
Qed.

Lemma accumulate_cons_day d r t ts a au :
  day_of t = Some d → py_float (SUM t) = Some a →
  py_float (SUM_E t) = Some au →
  accumulate d r (t :: ts) = accumulate d (apply_amounts t a au r) ts.
Proof.
  intros Hd Ha Hau. unfold accumulate, apply_amounts.
  rewrite inflows_cons, outflows_cons.
  destruct (decide (TRANTYPE t = "C")) as [HC|HC].
  - rewrite decide_True, decide_False by tauto.
    unfold total_from. simpl. by rewrite Ha, Hau.
  - rewrite decide_False, decide_True by tauto.
    unfold total_from. simpl. by rewrite Ha, Hau.
Qed.

Lemma foldl_step_Some d r ts :
  Forall parses ts →
  foldl (step d) (Some r) ts = Some (accumulate d r ts).
Proof.
  intros Hts. revert r.
  induction Hts as [|t ts (_ & [a Ha] & [au Hau]) _ IH]; intros r; simpl.
  - by rewrite accumulate_nil.
  - unfold step at 2. destruct (decide (day_of t = Some d)) as [Hd|Hd].
    + rewrite IH, Ha, Hau. simpl.
      by rewrite (accumulate_cons_day d r t ts a au).
    + by rewrite IH, accumulate_cons_other.
Qed.

Lemma foldl_step_None d ts :
  Forall parses ts →
  foldl (step d) None ts
  = if decide (Exists (λ t, day_of t = Some d) ts)
    then Some (accumulate d zero_totals ts) else None.
Proof.
  induction 1 as [|t ts Ht Hts IH]; cbn [foldl].
  - case_decide as Hex; [|done]. by apply Exists_nil in Hex.
  - unfold step at 2. destruct (decide (day_of t = Some d)) as [Hd|Hd].
    + rewrite decide_True by (by left).
      destruct Ht as (_ & [a Ha] & [au Hau]).
      rewrite foldl_step_Some, Ha, Hau by done. simpl.
      by rewrite (accumulate_cons_day d _ t ts a au).
    + rewrite IH, accumulate_cons_other by done.
      destruct (decide (Exists _ ts)) as [Hex|Hex].
      * by rewrite decide_True by (by right).
      * rewrite decide_False; [done|].
        by intros [?|?]%Exists_cons.
Qed.

(** A day without transactions accumulates nothing. *)
Lemma accumulate_no_transaction d r ts :
  ¬ Exists (λ t, day_of t = Some d) ts → accumulate d r ts = r.
Proof.
  intros Hex. induction ts as [|t ts IH].
  - apply accumulate_nil.
  - rewrite accumulate_cons_other; [apply IH|].
    + intros ?. apply Hex. by right.
    + intros ?. apply Hex. by left.
Qed.

(** *** Gap filling *)

Lemma fill_day_lookup m (day : Datetime) d :
  fill_day m day !! d
  = match m !! d with
    | Some r => Some r
    | None => if decide (d = dt_date day) then Some zero_totals else None
    end.
Proof.
  unfold fill_day. destruct (decide (is_Some (m !! dt_date day))) as [Hs|Hs].
  - destruct (m !! d) eqn:Hd; [done|].
    case_decide as Heq; [|done]. subst d. rewrite Hd in Hs.
    by destruct Hs.
  - apply eq_None_not_Some in Hs.
    destruct (decide (d = dt_date day)) as [->|Hne].
    + by rewrite lookup_insert_eq, Hs.
    + rewrite lookup_insert_ne by done. by destruct (m !! d).
Qed.

Lemma foldl_fill_day_lookup m (days : list Datetime) d :
  foldl fill_day m days !! d
  = match m !! d with
    | Some r => Some r
    | None =>
        if decide (d ∈ dt_date <$> days) then Some zero_totals else None
    end.
Proof.
  revert m. induction days as [|day days IH]; intros m; cbn [foldl].
  - destruct (m !! d); [done|]. case_decide as Hin; [|done].
    by apply elem_of_nil in Hin.
  - rewrite IH, fill_day_lookup. destruct (m !! d); [done|].
    rewrite fmap_cons.
    destruct (decide (d = dt_date day)) as [->|Hne].
    + by rewrite decide_True by left.
    + destruct (decide (d ∈ dt_date <$> days)) as [Hin|Hin].
      * by rewrite decide_True by (by right).
      * rewrite decide_False; [done|]. by intros [?|?]%elem_of_cons.
Qed.

(** The days the gap-filling loop visits, for a range that starts at
    midnight. *)
Lemma nominal_days (start : Datetime) (n : Z) :
  dt_time start = 0 →
  dt_date <$> ((λ k, datetime_add start (timedelta k)) <$> range n)
  = seqZ (dt_date start) n.
Proof.
  intros Hmid. rewrite <- list_fmap_compose. unfold range.
  replace (seqZ (dt_date start) n) with (Z.add (dt_date start) <$> seqZ 0 n)
    by (rewrite fmap_add_seqZ; f_equal; lia).
  apply list_fmap_ext. intros _ k _. simpl. rewrite Hmid.
  change ((0 + 0) `div` US_PER_DAY) with 0. lia.
Qed.

(** The day count of a range whose bounds are both at midnight. *)
Lemma day_count_midnight (start end_ : Datetime) :
  dt_time start = 0 → dt_time end_ = 0 →
  day_count start end_ = dt_date end_ - dt_date start + 1.
Proof.
  intros Hs He. unfold day_count, datetime_sub. simpl.
  rewrite Hs, He, Z.sub_diag, Z.add_0_r.
  by rewrite Z.div_mul.
Qed.

(** *** Sorting the items *)

Global Instance item_le_total : Total item_le.
Proof. intros a b. unfold item_le. lia. Qed.

Global Instance item_le_trans : Transitive item_le.
Proof. intros a b c. unfold item_le. lia. Qed.

Lemma sorted_Permutation (items : list (Z * Totals)) :
  sorted items ≡ₚ items.
Proof. apply merge_sort_Permutation. Qed.

Lemma StronglySorted_le_lt (l : list Z) :
  StronglySorted Z.le l → NoDup l → StronglySorted Z.lt l.
Proof.
  induction 1 as [|x l Hl IH Hx]; intros Hnd; [constructor|].
  apply NoDup_cons in Hnd as [Hnin Hnd].
  constructor; [by apply IH|].
  rewrite Forall_forall in Hx |- *. intros y Hy.
  specialize (Hx y Hy). assert (x ≠ y) by (by intros ->). lia.
Qed.

Lemma sorted_keys m :
  StronglySorted Z.lt (sorted (map_to_list m)).*1.
Proof.
  apply StronglySorted_le_lt.
  - apply Sorted_StronglySorted; [apply _|].
    apply (Sorted_fmap _ item_le); [done|].
    apply (Sorted_merge_sort item_le).
  - rewrite sorted_Permutation. apply NoDup_fst_map_to_list.
Qed.

Lemma elem_of_sorted m d r :
  (d, r) ∈ sorted (map_to_list m) ↔ m !! d = Some r.
Proof. by rewrite sorted_Permutation, elem_of_map_to_list. Qed.

(** A strictly ascending list is determined by its elements. *)
Lemma StronglySorted_lt_unique (l1 l2 : list Z) :
  StronglySorted Z.lt l1 → StronglySorted Z.lt l2 →
  (∀ x, x ∈ l1 ↔ x ∈ l2) → l1 = l2.
Proof.
  intros H1 H2 Hel.
  assert (Hnd : ∀ l, StronglySorted Z.lt l → NoDup l).
  { induction 1 as [|x l _ IH Hx]; constructor; [|done].
    intros Hin. rewrite Forall_forall in Hx. specialize (Hx _ Hin). lia. }
  assert (Hle : ∀ l, StronglySorted Z.lt l → StronglySorted Z.le l).
  { induction 1 as [|x l _ IH Hx]; constructor; [done|].
    eapply Forall_impl; [done|]. simpl. lia. }
  apply (StronglySorted_unique Z.le); auto.
  apply NoDup_Permutation; auto.
Qed.

Lemma StronglySorted_seqZ (a n : Z) : StronglySorted Z.lt (seqZ a n).
Proof.
  destruct (decide (n ≤ 0)) as [Hn|Hn]; [rewrite seqZ_nil by done; constructor|].
  rewrite <- (Z2Nat.id n) by lia. generalize (Z.to_nat n) as k. clear.
  intros k. revert a. induction k as [|k IH]; intros a.
  - rewrite seqZ_nil by done. constructor.
  - rewrite seqZ_cons by lia. constructor.
    + replace (Z.pred (Z.of_nat (S k))) with (Z.of_nat k) by lia. apply IH.
    + apply Forall_seqZ. lia.
Qed.

(** *** The returned items *)

Lemma sorted_totals_Some ts sd ed now (start end_ : Datetime) :
  strptime sd "%d-%m-%Y" = Some start →
  effective_end ed now = Some end_ →
  Forall parses ts →
  ∃ m, add_transactions ∅ ts = Some m
    ∧ sorted_totals ts sd ed now
      = Some (sorted (map_to_list
          (foldl fill_day m
             ((λ n, datetime_add start (timedelta n))
              <$> range (day_count start end_))))).
Proof.
  intros Hs He Hts.
  destruct (add_transactions_is_Some ∅ ts Hts) as [m Hm].
  exists m. split; [done|].
  unfold sorted_totals. rewrite Hs. simpl.
  unfold effective_end in He. rewrite He. simpl. by rewrite Hm.
Qed.

Lemma daily_totals_lookup ts m (start : Datetime) n d :
  add_transactions ∅ ts = Some m → dt_time start = 0 →
  foldl fill_day m ((λ k, datetime_add start (timedelta k)) <$> range n)
    !! d
  = if decide (Exists (λ t, day_of t = Some d) ts
               ∨ dt_date start ≤ d < dt_date start + n)
    then Some (accumulate d zero_totals ts) else None.
Proof.
  intros Hm Hmid.
  rewrite foldl_fill_day_lookup, nominal_days by done.
  rewrite (add_transactions_lookup _ _ _ d Hm), lookup_empty.
  rewrite foldl_step_None by eauto using add_transactions_parses.
  destruct (decide (Exists _ ts)) as [Hex|Hex].
  - by rewrite decide_True by (by left).
  - destruct (decide (d ∈ seqZ (dt_date start) n)) as [Hin|Hin];
      rewrite elem_of_seqZ in Hin.
    + rewrite decide_True by (by right).
      by rewrite accumulate_no_transaction.
    + rewrite decide_False; [done|]. tauto.
Qed.

(** What [calculate_daily_amounts] returns: the records of the days that
    carry a transaction or lie in the nominal range, in strictly
    ascending order of day, each holding the sums of its day. *)
Lemma sorted_totals_spec ts sd ed now (start end_ : Datetime) :
  strptime sd "%d-%m-%Y" = Some start →
  effective_end ed now = Some end_ →
  Forall parses ts →
  ∃ items,
    sorted_totals ts sd ed now = Some items
    ∧ calculate_daily_amounts ts sd ed now = Some (daily_amount <$> items)
    ∧ StronglySorted Z.lt items.*1
    ∧ ∀ d r, (d, r) ∈ items ↔
        r = accumulate d zero_totals ts
        ∧ (Exists (λ t, day_of t = Some d) ts
           ∨ dt_date start ≤ d < dt_date start + day_count start end_).
Proof.
  intros Hs He Hts.
  destruct (sorted_totals_Some ts sd ed now start end_ Hs He Hts)
    as (m & Hm & Hitems).
  eexists. split; [exact Hitems|]. split; [|split].
  - unfold calculate_daily_amounts. by rewrite Hitems.
  - apply sorted_keys.
  - intros d r. rewrite elem_of_sorted.
    rewrite (daily_totals_lookup ts m start _ d Hm)
      by eauto using strptime_date_only.
    destruct (decide _) as [Hd|Hd]; split.
    + by intros [= <-].
    + by intros [-> _].
    + done.
    + by intros [_ ?].
Qed.

Lemma sorted_totals_inv ts sd ed now items :
  sorted_totals ts sd ed now = Some items →
  ∃ start end_,
    strptime sd "%d-%m-%Y" = Some start
    ∧ effective_end ed now = Some end_ ∧ Forall parses ts.
Proof.
  unfold sorted_totals, effective_end. intros Hitems.
  destruct (strptime sd _) as [start|]; [|done]. simpl in Hitems.
  destruct (if truthy ed then _ else _) as [end_|]; [|done].
  simpl in Hitems.
  destruct (add_transactions ∅ ts) as [m|] eqn:Hm; [|done].
  exists start, end_. split_and!; [done..|].
  by eapply add_transactions_parses.
Qed.

Lemma elem_of_keys (items : list (Z * Totals)) d :
  d ∈ items.*1 ↔ ∃ r, (d, r) ∈ items.
Proof.
  rewrite list_elem_of_fmap. split.
  - intros ([d' r] & -> & Hin). by exists r.
  - intros [r Hin]. by exists (d, r).
Qed.

Lemma effective_end_given (ed : string) now :
  ed ≠ "" → effective_end (Some ed) now = strptime ed "%d-%m-%Y".
Proof.
  intros Hne. unfold effective_end. simpl.
  by destruct (String.eqb_spec ed "").
Qed.

(** With both bounds given, the day count is the inclusive number of
    days between them. *)
Lemma day_count_given sd (ed : string) now (start end_ : Datetime) :
  strptime sd "%d-%m-%Y" = Some start → ed ≠ "" →
  strptime ed "%d-%m-%Y" = Some end_ →
  effective_end (Some ed) now = Some end_
  ∧ day_count start end_ = dt_date end_ - dt_date start + 1.
Proof.
  intros Hs Hne He. split; [by rewrite effective_end_given|].
  apply day_count_midnight; eauto using strptime_date_only.
Qed.

Lemma items_of_keys (items : list (Z * Totals)) (l : list Z) (z : Totals) :
  items.*1 = l → (∀ d r, (d, r) ∈ items → r = z) →
  items = (λ d, (d, z)) <$> l.
Proof.
  intros <-. induction items as [|[d r] items IH]; intros Hz; [done|].
  csimpl. rewrite (Hz d r) by left. f_equal. apply IH.
  intros d' r' Hin. apply (Hz d'). by right.
Qed.

Lemma add_transaction_with_PR_PR flag m t :
  add_transaction m (with_PR_PR flag t) = add_transaction m t.
Proof. done. Qed.

Lemma add_transactions_with_PR_PR flag m ts :
  add_transactions m (with_PR_PR flag <$> ts) = add_transactions m ts.
Proof.
  revert m. induction ts as [|t ts IH]; intros m; [done|]. csimpl.
  rewrite add_transaction_with_PR_PR.
  destruct (add_transaction m t); simpl; [apply IH|done].
Qed.

Lemma sorted_totals_with_PR_PR flag ts sd ed now :
  sorted_totals (with_PR_PR flag <$> ts) sd ed now
  = sorted_totals ts sd ed now.
Proof. unfold sorted_totals. by rewrite add_transactions_with_PR_PR. Qed.

(** The returned list, record by record: one record per day that carries
    a transaction or lies in the nominal range, in strictly ascending
    order of day, holding the sums of the day. *)
Lemma calculate_rows ts sd ed now (start end_ : Datetime) :
  strptime sd "%d-%m-%Y" = Some start →
  effective_end ed now = Some end_ →
  Forall parses ts →
  ∃ days : list Date,
    calculate_daily_amounts ts sd ed now
    = Some ((λ d, {| date := strftime d "%Y-%m-%d";
                     totals := accumulate d zero_totals ts |}) <$> days)
    ∧ StronglySorted Z.lt days
    ∧ ∀ d, d ∈ days ↔
        Exists (λ t, day_of t = Some d) ts
        ∨ dt_date start ≤ d < dt_date start + day_count start end_.
Proof.
  intros Hs He Hts.
  destruct (sorted_totals_spec ts sd ed now start end_ Hs He Hts)
    as (items & _ & Hrows & Hsorted & Hel).
  exists items.*1. split_and!; [|done|].
  - rewrite Hrows. f_equal. rewrite <- list_fmap_compose.
    apply list_fmap_ext. intros i [d r] Hi.
    apply list_elem_of_lookup_2, Hel in Hi as [-> _]. done.
  - intros d. rewrite elem_of_keys. split.
    + by intros (r & [_ ?]%Hel).
    + intros Hd. eexists. by apply Hel.
Qed.

Lemma nonneg_total_from init field (ts : list Transaction) :
  nonneg init →
  Forall (λ t, ∀ x, py_float (field t) = Some x → nonneg x) ts →
  nonneg (total_from init field ts).
Proof.
  intros Hi Hts. apply nonneg_foldl_add; [done|].
  apply Forall_forall. intros x (t & Ht & Hx)%list_elem_of_omap.
  rewrite Forall_forall in Hts. by apply (Hts t).
Qed.

Lemma nonneg_accumulate d ts :
  Forall nonneg_amounts ts → nonneg_totals (accumulate d zero_totals ts).
Proof.
  intros Hts.
  assert (Hsum : Forall (λ t, ∀ x, py_float (SUM t) = Some x → nonneg x) ts).
  { apply (Forall_impl _ _ _ Hts). intros t (a & au & Ha & _ & Hn & _) x.
    rewrite Ha. by intros [= <-]. }
  assert (Hsume :
    Forall (λ t, ∀ x, py_float (SUM_E t) = Some x → nonneg x) ts).
  { apply (Forall_impl _ _ _ Hts). intros t (a & au & _ & Hau & _ & Hn) x.
    rewrite Hau. by intros [= <-]. }
  unfold nonneg_totals, accumulate, inflows, outflows; simpl.
  assert (Hsub : ∀ (P Q : Transaction → Prop) `{!∀ t, Decision (Q t)},
    Forall P ts → Forall P (filter Q ts)).
  { intros P Q ?. rewrite !Forall_forall.
    intros HP t [_ Hin]%list_elem_of_filter. by apply HP. }
  repeat split; apply nonneg_total_from; auto using nonneg_zero.
Qed.
End aggregator_facts.

(** * The claims about calculate_daily_amounts *)

Section aggregator_claims.
Context `{Library}.
Implicit Types (t : Transaction) (d : Date) (ts : list Transaction)
  (r : Totals).


(** C2.  The returned list has one record per day, in ascending order of
    day, and every transaction has the record of its calendar day (the
    time of day is dropped) in it.  The record of a day holds, in
    [money_in] and [money_in_UAH], the sums of [SUM] and [SUM_E] over that
    day's transactions with direction code ["C"], and in [money_out] and
    [money_out_UAH] the sums over that day's transactions with any other
    code: an inflow never reaches the outflow fields, nor an outflow the
    inflow fields. *)
Theorem amounts_routed_by_direction ts sd ed now (start end_ : Datetime) :
  strptime sd "%d-%m-%Y" = Some start →
  effective_end ed now = Some end_ →
  Forall parses ts →
  ∃ days : list Date,
    calculate_daily_amounts ts sd ed now
    = Some ((λ d, {| date := strftime d "%Y-%m-%d";
                     totals :=
                       {| money_in := total SUM (inflows d ts);
                          money_out := total SUM (outflows d ts);
                          money_in_UAH := total SUM_E (inflows d ts);
                          money_out_UAH := total SUM_E (outflows d ts) |} |})
            <$> days)
    ∧ StronglySorted Z.lt days
    ∧ ∀ t, t ∈ ts → ∃ d, day_of t = Some d ∧ d ∈ days.
Proof.
  intros Hs He Hts.
  destruct (calculate_rows ts sd ed now start end_ Hs He Hts)
    as (days & Hrows & Hsorted & Hdays).
  exists days. split_and!; [exact Hrows|done|].
  intros t Ht. rewrite Forall_forall in Hts.
  destruct (Hts t Ht) as ([d Hd] & _). exists d. split; [done|].
  apply Hdays. left. apply Exists_exists. eauto.
Qed.

(** C6, as amended.  When the [SUM] and [SUM_E] of every transaction are
    non-negative numbers, the four fields of every returned record are
    non-negative. *)
Theorem totals_nonnegative ts sd ed now (start end_ : Datetime) :
  strptime sd "%d-%m-%Y" = Some start →
  effective_end ed now = Some end_ →
  Forall parses ts →
  Forall nonneg_amounts ts →
  ∃ rows,
    calculate_daily_amounts ts sd ed now = Some rows
    ∧ Forall (λ row, nonneg_totals (totals row)) rows.
Proof.
  intros Hs He Hts Hnn.
  destruct (sorted_totals_spec ts sd ed now start end_ Hs He Hts)
    as (items & _ & Hrows & _ & Hel).
  eexists. split; [done|].
  apply Forall_fmap, Forall_forall. intros [d r] [-> _]%Hel. simpl.
  by apply nonneg_accumulate.
Qed.

(** C7.  With no transaction and a range of [N] days ([end >= start]),
    the output is the list of the [N] days of the range in ascending
    order, each with its four fields equal to zero. *)
Theorem no_transactions_zero_records sd (ed : string) now
    (start end_ : Datetime) :
  strptime sd "%d-%m-%Y" = Some start →
  ed ≠ "" →
  strptime ed "%d-%m-%Y" = Some end_ →
  dt_date start ≤ dt_date end_ →
  calculate_daily_amounts [] sd (Some ed) now
  = Some ((λ d, {| date := strftime d "%Y-%m-%d"; totals := zero_totals |})
          <$> seqZ (dt_date start) (dt_date end_ - dt_date start + 1))
  ∧ length ((λ d, {| date := strftime d "%Y-%m-%d";
                     totals := zero_totals |})
            <$> seqZ (dt_date start) (dt_date end_ - dt_date start + 1))
    = Z.to_nat (dt_date end_ - dt_date start + 1).
Proof.
  intros Hs Hne He Hle.
  split; [|by rewrite length_fmap, length_seqZ].
  destruct (day_count_given sd ed now start end_ Hs Hne He) as [Heff Hn].
  destruct (sorted_totals_spec [] sd (Some ed) now start end_ Hs Heff)
    as (items & _ & Hrows & Hsorted & Hel); [done|].
  rewrite Hn in Hel. rewrite Hrows. f_equal.
  rewrite (items_of_keys items
    (seqZ (dt_date start) (dt_date end_ - dt_date start + 1)) zero_totals).
  - by rewrite <- list_fmap_compose.
  - apply StronglySorted_lt_unique; [done|apply StronglySorted_seqZ|].
    intros d. rewrite elem_of_keys, elem_of_seqZ. split.
    + intros (r & [_ [Hex|Hd]]%Hel); [by apply Exists_nil in Hex|lia].
    + intros Hd. eexists. apply Hel. split; [done|]. right. lia.
  - intros d r [-> _]%Hel. apply accumulate_nil.
Qed.


(** C10.  The aggregation does not look at the confirmation flag.  The
    call returns the same records when the [PR_PR] fields are replaced by
    anything; and every transaction of the list, whatever its [PR_PR], has
    a record for its calendar day in the returned list, and is one of the
    transactions whose amounts that record sums: the inflow fields hold
    the sums over all the transactions of the day with direction code
    ["C"], the outflow fields the sums over all the others, none left out
    for its flag. *)
Theorem confirmation_flag_ignored (flag : Transaction → string) ts sd ed
    now (start end_ : Datetime) :
  strptime sd "%d-%m-%Y" = Some start →
  effective_end ed now = Some end_ →
  Forall parses ts →
  ∃ rows,
    calculate_daily_amounts ts sd ed now = Some rows
    ∧ calculate_daily_amounts (with_PR_PR flag <$> ts) sd ed now = Some rows
    ∧ ∀ t, t ∈ ts →
        ∃ d row,
          day_of t = Some d
          ∧ row ∈ rows
          ∧ date row = strftime d "%Y-%m-%d"
          ∧ (if decide (TRANTYPE t = "C")
             then t ∈ inflows d ts else t ∈ outflows d ts)
          ∧ money_in (totals row) = total SUM (inflows d ts)
          ∧ money_in_UAH (totals row) = total SUM_E (inflows d ts)
          ∧ money_out (totals row) = total SUM (outflows d ts)
          ∧ money_out_UAH (totals row) = total SUM_E (outflows d ts).
Proof.
  intros Hs He Hts.
  destruct (calculate_rows ts sd ed now start end_ Hs He Hts)
    as (days & Hrows & _ & Hdays).
  eexists. split; [exact Hrows|]. split.
  { unfold calculate_daily_amounts in Hrows |- *.
    by rewrite sorted_totals_with_PR_PR. }
  intros t Ht. rewrite Forall_forall in Hts.
  destruct (Hts t Ht) as ([d Hd] & _).
  exists d. eexists. split; [done|]. split.
  { apply list_elem_of_fmap_2. apply Hdays. left.
    apply Exists_exists. eauto. }
  split_and!; [done| |done..].
  unfold inflows, outflows.
  case_decide; apply list_elem_of_filter; auto.
Qed.
End aggregator_claims.

(** * Properties of get_transactions *)

Section fetcher_facts.
Implicit Types (w : World) (data : Response.t)
  (pages responses rest : list Response.t)
  (acc ts : list Transaction) (f : option string).

Lemma pages_transactions_cons data pages :
  pages_transactions (data :: pages)
  = confirmed (Response.transactions data) ++ pages_transactions pages.
Proof. done. Qed.

Lemma pages_transactions_app pages1 pages2 :
  pages_transactions (pages1 ++ pages2)
  = pages_transactions pages1 ++ pages_transactions pages2.
Proof. apply bind_app. Qed.

Lemma pages_transactions_snoc pages data :
  pages_transactions (pages ++ [data])
  = pages_transactions pages ++ confirmed (Response.transactions data).
Proof.
  rewrite pages_transactions_app, pages_transactions_cons.
  change (pages_transactions []) with (@nil Transaction).
  by rewrite app_nil_r.
Qed.

Lemma fetched_logs_app n pages1 pages2 :
  fetched_logs n (pages1 ++ pages2)
  = fetched_logs n pages1
    ++ fetched_logs (n + length (pages_transactions pages1)) pages2.
Proof.
  revert n. induction pages1 as [|data pages1 IH]; intros n.
  - simpl. by rewrite Nat.add_0_r.
  - cbn [fetched_logs app].
    rewrite IH, pages_transactions_cons, length_app. do 3 f_equal. lia.
Qed.

(** One iteration on a page after which the loop goes on. *)
Lemma loop_continuing_page data responses a s e h acc f w :
  continuing data →
  get_transactions_loop (data :: responses) a s e h acc f w
  = get_transactions_loop responses a s e h
      (acc ++ confirmed (Response.transactions data))
      (Some (Response.next_page_id data))
      (logging INFO
         (FetchedSoFar
            (length (acc ++ confirmed (Response.transactions data))))
         (set_network responses (send (statements_request a s e f h) w))).
Proof.
  intros [Hst Hnext]. simpl. rewrite decide_False by (by intros []).
  by rewrite Hnext.
Qed.

(** The loop over a prefix of pages that all announce a next page. *)
Lemma loop_continuing pages rest a s e h acc f w :
  Forall continuing pages → network w = pages ++ rest →
  get_transactions_loop (pages ++ rest) a s e h acc f w
  = get_transactions_loop rest a s e h
      (acc ++ pages_transactions pages) (next_follow_id f pages)
      (mkWorld rest
         (sent w ++ ((λ f, statements_request a s e f h)
                     <$> follow_ids f pages))
         (log w ++ fetched_logs (length acc) pages)
         (files w) (refused w) (clock w) (clock_reads w)).
Proof.
  intros Hpages. revert acc f w.
  induction Hpages as [|data pages Hdata _ IH]; intros acc f w Hnet.
  - destruct w; simpl in *. by rewrite !app_nil_r, Hnet.
  - cbn [app]. rewrite loop_continuing_page by done.
    rewrite IH by done.
    rewrite pages_transactions_cons, length_app.
    cbn [follow_ids next_follow_id fetched_logs fmap list_fmap
         logging set_network send sent log files refused clock clock_reads].
    by rewrite <- !app_assoc.
Qed.

Lemma loop_last_page data responses a s e h acc f w :
  is_last_page data →
  get_transactions_loop (data :: responses) a s e h acc f w
  = Returns (acc ++ confirmed (Response.transactions data))
      (logging INFO
         (FetchedSoFar
            (length (acc ++ confirmed (Response.transactions data))))
         (set_network responses (send (statements_request a s e f h) w))).
Proof.
  intros [Hst Hnext]. simpl. rewrite decide_False by (by intros []).
  by rewrite Hnext.
Qed.

Lemma loop_failed data responses a s e h acc f w :
  failed data →
  get_transactions_loop (data :: responses) a s e h acc f w
  = Returns acc
      (logging ERROR (FailedToFetch data)
         (set_network responses (send (statements_request a s e f h) w))).
Proof. intros Hst. simpl. by rewrite decide_True. Qed.

Lemma follow_ids_app f pages1 pages2 :
  follow_ids f (pages1 ++ pages2)
  = follow_ids f pages1 ++ follow_ids (next_follow_id f pages1) pages2.
Proof.
  revert f. induction pages1 as [|data pages1 IH]; intros f; [done|].
  simpl. by rewrite IH.
Qed.

Lemma length_follow_ids f pages :
  length (follow_ids f pages) = length pages.
Proof.
  revert f. induction pages as [|data pages IH]; intros f; [done|].
  simpl. by rewrite IH.
Qed.

(** Whatever the responses, a call that returns has consumed some of
    them, and returns the confirmed transactions of the successful ones;
    it touches neither the files nor the clock. *)
Lemma loop_returns_inv responses a s e h acc f w ts w' :
  get_transactions_loop responses a s e h acc f w = Returns ts w' →
  ∃ pages,
    responses = pages ++ network w'
    ∧ ts = acc ++ pages_transactions (successful pages)
    ∧ files w' = files w ∧ clock w' = clock w
    ∧ clock_reads w' = clock_reads w.
Proof.
  revert acc f w. induction responses as [|data responses IH];
    intros acc f w; [done|].
  destruct (decide (Response.status data = "SUCCESS")) as [Hst|Hst];
    [destruct (Response.exist_next_page data) eqn:Hnext|].
  - rewrite loop_continuing_page by done.
    intros (pages & -> & -> & Hfiles & Hclock & Hreads)%IH.
    exists (data :: pages). split_and!; [done| |done..].
    unfold successful. rewrite filter_cons, decide_True by done.
    by rewrite pages_transactions_cons, app_assoc.
  - rewrite loop_last_page by done. intros [= <- <-].
    exists [data]. split_and!; [done| |done..].
    unfold successful. rewrite filter_cons, decide_True by done.
    by rewrite pages_transactions_cons, app_nil_r.
  - rewrite loop_failed by done. intros [= <- <-].
    exists [data]. split_and!; [done| |done..].
    unfold successful. rewrite filter_cons, decide_False by done.
    by rewrite app_nil_r.
Qed.

(** The successful pages logged, each with the number of transactions
    accumulated up to it. *)
Lemma fetched_logs_counts n pages :
  fetched_logs n pages
  = (λ k, (INFO,
           FetchedSoFar (n + length (pages_transactions (take k pages)))))
    <$> seq 1 (length pages).
Proof.
  revert n. induction pages as [|data pages IH]; intros n; [done|].
  cbn [fetched_logs length seq fmap list_fmap].
  rewrite IH. f_equal.
  - cbn [take]. rewrite pages_transactions_cons.
    change (pages_transactions []) with (@nil Transaction).
    by rewrite app_nil_r.
  - rewrite <- (fmap_S_seq 1), <- list_fmap_compose.
    apply list_fmap_ext. intros _ k _. unfold compose. cbn [take].
    rewrite pages_transactions_cons, length_app. do 2 f_equal. lia.
Qed.

(** Filtering page by page, or all the transactions received at once. *)
Lemma filter_received pages :
  filter (λ t, PR_PR t = "r")
    (pages ≫= (λ page, if decide (Response.status page = "SUCCESS")
                       then Response.transactions page else []))
  = pages_transactions (successful pages).
Proof.
  induction pages as [|data pages IH]; [done|].
  rewrite bind_cons, filter_app, IH. unfold successful.
  rewrite filter_cons. case_decide.
  - by rewrite pages_transactions_cons.
  - done.
Qed.

Lemma successful_continuing pages :
  Forall continuing pages → successful pages = pages.
Proof.
  induction 1 as [|data pages [Hst _] _ IH]; [done|].
  unfold successful in *. by rewrite filter_cons, decide_True, IH.
Qed.

Lemma elem_of_pages_transactions pages t :
  t ∈ pages_transactions pages ↔
  ∃ data, data ∈ pages ∧ t ∈ Response.transactions data ∧ PR_PR t = "r".
Proof.
  unfold pages_transactions. rewrite list_elem_of_bind.
  split; intros (data & H1 & H2); exists data.
  - apply list_elem_of_filter in H1. tauto.
  - split; [|tauto]. apply list_elem_of_filter. tauto.
Qed.
End fetcher_facts.

(** * The claims about get_transactions and generate_report *)

Section fetcher_claims.
Implicit Types (w : World) (data : Response.t)
  (pages rest : list Response.t) (ts : list Transaction).

(** C3.  When the server answers with pages that each announce a next
    page, followed by a successful page that announces none,
    [get_transactions] returns the transactions of these pages that carry
    the flag ["r"], page after page in the order of the responses, after
    one request per page and no request more: the responses that follow
    the last page stay unread.  Each request carries the [next_page_id] of
    the page before it, the first one none, and after each page the number
    of transactions kept so far is logged.  With no page before the last
    one, this is exactly one request. *)
Theorem pages_concatenated_until_last_page a s e token w pages last rest :
  network w = pages ++ last :: rest →
  Forall continuing pages →
  is_last_page last →
  ∃ w',
    get_transactions a s e token w
    = Returns
        ((pages ++ [last]) ≫=
           (λ data, filter (λ t, PR_PR t = "r") (Response.transactions data)))
        w'
    ∧ network w' = rest
    ∧ sent w'
      = sent w ++ ((λ f, statements_request a s e f (request_headers token))
                   <$> follow_ids None (pages ++ [last]))
    ∧ length (sent w') = (length (sent w) + length pages + 1)%nat
    ∧ log w'
      = log w
        ++ ((λ k,
              (INFO,
               FetchedSoFar
                 (length
                    (take k (pages ++ [last]) ≫=
                       (λ data, filter (λ t, PR_PR t = "r")
                                  (Response.transactions data))))))
            <$> seq 1 (length pages + 1))
    ∧ files w' = files w.
Proof.
  intros Hnet Hpages Hlast. unfold get_transactions. rewrite Hnet.
  rewrite loop_continuing, loop_last_page by done.
  eexists. split.
  { change ((pages ++ [last]) ≫= _)
      with (pages_transactions (pages ++ [last])).
    by rewrite pages_transactions_snoc. }
  cbn [logging set_network send network sent log files].
  split_and!; [done| | | |done].
  - by rewrite follow_ids_app, fmap_app, <- app_assoc.
  - rewrite <- app_assoc, !length_app, length_fmap, length_follow_ids.
    simpl. lia.
  - change (λ k, (INFO, FetchedSoFar (length (take k (pages ++ [last]) ≫= _))))
      with (λ k, (INFO,
                  FetchedSoFar
                    (0 + length (pages_transactions
                                   (take k (pages ++ [last])))))).
    replace (length pages + 1)%nat with (length (pages ++ [last]))
      by (rewrite length_app; simpl; lia).
    rewrite <- fetched_logs_counts, fetched_logs_app, <- app_assoc.
    cbn [fetched_logs app length Nat.add]. by rewrite length_app.
Qed.

(** C4.  When a response reports a status other than ["SUCCESS"], after
    pages that each announced a next page, [get_transactions] returns
    (it raises nothing) the confirmed transactions of the pages before
    it, sends no further request, and the last record it logs is the
    error; when the failure is the first response, the list is empty. *)
Theorem failure_returns_accumulated a s e token w pages bad rest :
  network w = pages ++ bad :: rest →
  Forall continuing pages →
  failed bad →
  ∃ w',
    get_transactions a s e token w = Returns (pages_transactions pages) w'
    ∧ (pages = [] → pages_transactions pages = [])
    ∧ log w'
      = log w ++ fetched_logs 0 pages ++ [(ERROR, FailedToFetch bad)]
    ∧ network w' = rest
    ∧ length (sent w') = (length (sent w) + length pages + 1)%nat
    ∧ files w' = files w.
Proof.
  intros Hnet Hpages Hbad. unfold get_transactions. rewrite Hnet.
  rewrite loop_continuing, loop_failed by done.
  eexists. split; [done|].
  cbn [logging set_network send network sent log files].
  split_and!; [by intros ->|by rewrite <- app_assoc|done| |done].
  rewrite !length_app, length_fmap, length_follow_ids. simpl. lia.
Qed.

(** C5.  When the server answers with pages that each announce a next
    page, followed by a response that ends the loop (a successful page
    without next page, or a failure), [get_transactions] returns a list:
    the transactions of the successful responses, in the order received,
    without those whose [PR_PR] is not ["r"].  So no transaction with
    another flag is in the list, and every transaction of a successful
    response with the flag ["r"] is. *)
Theorem only_confirmed_returned a s e token w pages data rest :
  network w = pages ++ data :: rest →
  Forall continuing pages →
  ends_loop data →
  ∃ ts w',
    get_transactions a s e token w = Returns ts w'
    ∧ network w' = rest
    ∧ ts = filter (λ t, PR_PR t = "r")
             ((pages ++ [data]) ≫=
                (λ page, if decide (Response.status page = "SUCCESS")
                         then Response.transactions page else []))
    ∧ Forall (λ t, PR_PR t = "r") ts
    ∧ ∀ page t,
        page ∈ pages ++ [data] → Response.status page = "SUCCESS" →
        t ∈ Response.transactions page →
        (PR_PR t = "r" → t ∈ ts) ∧ (PR_PR t ≠ "r" → t ∉ ts).
Proof.
  intros Hnet Hpages Hend.
  assert (Hrun : ∃ w',
    get_transactions a s e token w
    = Returns (pages_transactions (successful (pages ++ [data]))) w'
    ∧ network w' = rest).
  { unfold get_transactions, successful. rewrite Hnet, filter_app.
    fold (successful pages). rewrite (successful_continuing pages) by done.
    rewrite loop_continuing by done. rewrite filter_cons, filter_nil.
    destruct Hend as [Hlast|Hbad].
    - rewrite loop_last_page by done. destruct Hlast as [Hst _].
      rewrite decide_True by done. eexists.
      by rewrite pages_transactions_snoc.
    - rewrite loop_failed by done. rewrite decide_False by done.
      eexists. by rewrite app_nil_r. }
  destruct Hrun as (w' & Hrun & Hrest).
  exists (pages_transactions (successful (pages ++ [data]))), w'.
  assert (Hall : Forall (λ t, PR_PR t = "r")
                   (pages_transactions (successful (pages ++ [data])))).
  { apply Forall_forall.
    by intros t (? & _ & _ & ?)%elem_of_pages_transactions. }
  split_and!; [done..|by rewrite filter_received|done|].
  intros page t Hpage Hst Ht. split.
  - intros Hr. apply elem_of_pages_transactions. exists page.
    split_and!; [|done..]. by apply list_elem_of_filter.
  - intros Hr Hin. rewrite Forall_forall in Hall. by apply Hr, Hall.
Qed.
End fetcher_claims.

Section report_claims.
Context `{Library}.

End report_claims.

(** ** The claims on concrete inputs *)

Local Ltac parsed :=
  repeat first
    [ apply Forall_nil_2
    | apply Forall_cons_2
    | split
    | by eexists ].

(** The scenario of the test suite. *)
Example two_transactions_two_days :
  @calculate_daily_amounts CPython.library example_transactions
    "01-03-2024" (Some "02-03-2024") noon
  = Some [ {| date := "2024-03-01"; totals := mkTotals 100 0 2700 0 |};
           {| date := "2024-03-02"; totals := mkTotals 0 200 0 5400 |} ].
Proof. vm_compute. reflexivity. Qed.

(** The time of day is dropped: both transactions land in the record of
    their day, and the amounts are added as floats ([0.1 + 0.2] is
    [0.30000000000000004], [2.7 + 5.4] is [8.100000000000001]). *)
Example same_day_one_record :
  @calculate_daily_amounts CPython.library same_day_transactions
    "01-03-2024" (Some "01-03-2024") noon
  = Some [ {| date := "2024-03-01";
              totals := mkTotals 0x1.3333333333334p-2 0
                          0x1.0333333333334p+3 0 |} ].
Proof. vm_compute. reflexivity. Qed.



Lemma amounts_routed_by_direction_witness :
  ∃ days : list Date,
    @calculate_daily_amounts CPython.library credit_and_debit "01-03-2024"
      (Some "01-03-2024") noon
    = Some ((λ d, {| date := @strftime CPython.library d "%Y-%m-%d";
                     totals :=
                       {| money_in :=
                            @total CPython.library SUM
                              (@inflows CPython.library d credit_and_debit);
                          money_out :=
                            @total CPython.library SUM
                              (@outflows CPython.library d credit_and_debit);
                          money_in_UAH :=
                            @total CPython.library SUM_E
                              (@inflows CPython.library d credit_and_debit);
                          money_out_UAH :=
                            @total CPython.library SUM_E
                              (@outflows CPython.library d
                                 credit_and_debit) |} |})
            <$> days)
    ∧ StronglySorted Z.lt days
    ∧ ∀ t, t ∈ credit_and_debit →
        ∃ d, @day_of CPython.library t = Some d ∧ d ∈ days.
Proof.
  apply (amounts_routed_by_direction (H:=CPython.library)
           credit_and_debit "01-03-2024" (Some "01-03-2024") noon
           march_1 march_1);
    [reflexivity | reflexivity | parsed].
Defined.

(** A credit and a debit of one day: the credit is in the inflow fields
    only, the debit in the outflow fields only. *)
Example credit_and_debit_routed :
  @calculate_daily_amounts CPython.library credit_and_debit "01-03-2024"
    (Some "01-03-2024") noon
  = Some [ {| date := "2024-03-01"; totals := mkTotals 100 30 2700 810 |} ].
Proof. vm_compute. reflexivity. Qed.

(** C6 fails as stated: a credit with a negative [SUM] leaves a negative
    [money_in]. *)
Lemma negative_amount_negative_total :
  ∃ row,
    @calculate_daily_amounts CPython.library [negative_credit]
      "01-03-2024" (Some "01-03-2024") noon = Some [row]
    ∧ money_in (totals row) = (-5)%float
    ∧ (money_in (totals row) <? 0)%float = true
    ∧ ¬ nonneg_totals (totals row).
Proof.
  eexists. split; [vm_compute; reflexivity|]. simpl.
  split_and!; [reflexivity..|].
  intros [Hin _]. revert Hin. unfold nonneg. simpl. by vm_compute.
Qed.

Lemma totals_nonnegative_witness :
  ∃ rows,
    @calculate_daily_amounts CPython.library example_transactions
      "01-03-2024" (Some "02-03-2024") noon = Some rows
    ∧ Forall (λ row, nonneg_totals (totals row)) rows.
Proof.
  apply (totals_nonnegative (H:=CPython.library) example_transactions
           "01-03-2024" (Some "02-03-2024") noon march_1 march_2);
    [reflexivity | reflexivity | parsed |].
  repeat first
    [ apply Forall_nil_2
    | apply Forall_cons_2
    | do 2 eexists; split_and!; reflexivity ].
Defined.

Lemma no_transactions_zero_records_witness :
  @calculate_daily_amounts CPython.library [] "01-03-2024"
    (Some "03-03-2024") noon
  = Some ((λ d, {| date := @strftime CPython.library d "%Y-%m-%d";
                   totals := zero_totals |})
          <$> seqZ (dt_date march_1) (dt_date march_3 - dt_date march_1 + 1))
  ∧ length ((λ d, {| date := @strftime CPython.library d "%Y-%m-%d";
                     totals := zero_totals |})
            <$> seqZ (dt_date march_1)
                  (dt_date march_3 - dt_date march_1 + 1))
    = Z.to_nat (dt_date march_3 - dt_date march_1 + 1).
Proof.
  apply (no_transactions_zero_records (H:=CPython.library) "01-03-2024"
           "03-03-2024" noon march_1 march_3);
    [reflexivity | done | reflexivity | simpl; lia].
Defined.

(** The scenario of the specification: three zero records. *)
Example empty_list_three_days :
  @calculate_daily_amounts CPython.library [] "01-03-2024"
    (Some "03-03-2024") noon
  = Some [ {| date := "2024-03-01"; totals := zero_totals |};
           {| date := "2024-03-02"; totals := zero_totals |};
           {| date := "2024-03-03"; totals := zero_totals |} ].
Proof. vm_compute. reflexivity. Qed.


(** With the range reversed, only the days of the transactions are
    returned. *)
Example reversed_range_keeps_transaction_days :
  @calculate_daily_amounts CPython.library example_transactions
    "03-03-2024" (Some "01-03-2024") noon
  = Some [ {| date := "2024-03-01"; totals := mkTotals 100 0 2700 0 |};
           {| date := "2024-03-02"; totals := mkTotals 0 200 0 5400 |} ].
Proof. vm_compute. reflexivity. Qed.

Lemma confirmation_flag_ignored_witness :
  ∃ rows,
    @calculate_daily_amounts CPython.library
      (unconfirmed_transaction :: example_transactions) "01-03-2024"
      (Some "02-03-2024") noon = Some rows
    ∧ @calculate_daily_amounts CPython.library
        (with_PR_PR (λ _, "r")
         <$> unconfirmed_transaction :: example_transactions)
        "01-03-2024" (Some "02-03-2024") noon = Some rows
    ∧ ∀ t, t ∈ unconfirmed_transaction :: example_transactions →
        ∃ d row,
          @day_of CPython.library t = Some d
          ∧ row ∈ rows
          ∧ date row = @strftime CPython.library d "%Y-%m-%d"
          ∧ (if decide (TRANTYPE t = "C")
             then t ∈ @inflows CPython.library d
                        (unconfirmed_transaction :: example_transactions)
             else t ∈ @outflows CPython.library d
                        (unconfirmed_transaction :: example_transactions))
          ∧ money_in (totals row)
            = @total CPython.library SUM
                (@inflows CPython.library d
                   (unconfirmed_transaction :: example_transactions))
          ∧ money_in_UAH (totals row)
            = @total CPython.library SUM_E
                (@inflows CPython.library d
                   (unconfirmed_transaction :: example_transactions))
          ∧ money_out (totals row)
            = @total CPython.library SUM
                (@outflows CPython.library d
                   (unconfirmed_transaction :: example_transactions))
          ∧ money_out_UAH (totals row)
            = @total CPython.library SUM_E
                (@outflows CPython.library d
                   (unconfirmed_transaction :: example_transactions)).
Proof.
  apply (confirmation_flag_ignored (H:=CPython.library) (λ _, "r")
           (unconfirmed_transaction :: example_transactions) "01-03-2024"
           (Some "02-03-2024") noon march_1 march_2);
    [reflexivity | reflexivity | parsed].
Defined.

(** The aggregator called with an unconfirmed transaction counts it: the
    debit of 7.00 with the flag ["p"] is in the outflow of its day, alone
    and beside the confirmed debit of 200.00. *)
Example unconfirmed_transaction_counted :
  @calculate_daily_amounts CPython.library [unconfirmed_transaction]
    "02-03-2024" (Some "02-03-2024") noon
  = Some [ {| date := "2024-03-02"; totals := mkTotals 0 7 0 189 |} ]
  ∧ @calculate_daily_amounts CPython.library
      (unconfirmed_transaction :: example_transactions) "01-03-2024"
      (Some "02-03-2024") noon
    = Some [ {| date := "2024-03-01"; totals := mkTotals 100 0 2700 0 |};
             {| date := "2024-03-02"; totals := mkTotals 0 207 0 5589 |} ].
Proof. split; vm_compute; reflexivity. Qed.

(** The scenario of the test suite: one successful page without a next
    page, one request, both transactions returned. *)
Example single_page_one_request :
  ∃ w',
    get_transactions "123456" "01-03-2024" "02-03-2024" "token"
      (fresh_world [single_page])
    = Returns example_transactions w'
    ∧ length (sent w') = 1%nat
    ∧ url <$> sent w'
      = ["https://acp.privatbank.ua/api/statements/transactions?acc=123456&startDate=01-03-2024&endDate=02-03-2024&followId="].
Proof. eexists. split_and!; reflexivity. Qed.

(** Two pages: the second request carries the [next_page_id] of the
    first page, and the pages are concatenated in order. *)
Example two_pages_two_requests :
  ∃ w',
    get_transactions "123456" "01-03-2024" "02-03-2024" "token"
      (fresh_world [first_page; mixed_page; single_page])
    = Returns (example_transactions ++ example_transactions) w'
    ∧ network w' = [single_page]
    ∧ url <$> sent w'
      = ["https://acp.privatbank.ua/api/statements/transactions?acc=123456&startDate=01-03-2024&endDate=02-03-2024&followId=";
         "https://acp.privatbank.ua/api/statements/transactions?acc=123456&startDate=01-03-2024&endDate=02-03-2024&followId=page-2"]
    ∧ log w' = [(INFO, FetchedSoFar 2); (INFO, FetchedSoFar 4)].
Proof. eexists. split_and!; reflexivity. Qed.

Lemma pages_concatenated_until_last_page_witness :
  ∃ w',
    get_transactions "123456" "01-03-2024" "02-03-2024" "token"
      (fresh_world [first_page; mixed_page; single_page])
    = Returns (example_transactions ++ example_transactions) w'
    ∧ network w' = [single_page]
    ∧ sent w'
      = [ statements_request "123456" "01-03-2024" "02-03-2024" None
            (request_headers "token");
          statements_request "123456" "01-03-2024" "02-03-2024"
            (Some "page-2") (request_headers "token") ]
    ∧ length (sent w') = 2%nat
    ∧ log w' = [(INFO, FetchedSoFar 2); (INFO, FetchedSoFar 4)]
    ∧ files w' = ∅.
Proof.
  exact (pages_concatenated_until_last_page "123456" "01-03-2024"
           "02-03-2024" "token"
           (fresh_world [first_page; mixed_page; single_page])
           [first_page] mixed_page [single_page] eq_refl
           (Forall_cons_2 continuing first_page [] (conj eq_refl eq_refl)
              (Forall_nil_2 continuing))
           (conj eq_refl eq_refl)).
Defined.

Lemma failure_returns_accumulated_witness :
  ∃ w',
    get_transactions "123456" "01-03-2024" "02-03-2024" "token"
      (fresh_world [error_response; single_page])
    = Returns (pages_transactions []) w'
    ∧ (@nil Response.t = [] → pages_transactions [] = [])
    ∧ log w'
      = log (fresh_world [error_response; single_page])
        ++ fetched_logs 0 [] ++ [(ERROR, FailedToFetch error_response)]
    ∧ network w' = [single_page]
    ∧ length (sent w')
      = (length (sent (fresh_world [error_response; single_page]))
         + length (@nil Response.t) + 1)%nat
    ∧ files w' = files (fresh_world [error_response; single_page]).
Proof.
  apply (failure_returns_accumulated "123456" "01-03-2024" "02-03-2024"
           "token" (fresh_world [error_response; single_page]) []
           error_response [single_page]);
    [reflexivity | apply Forall_nil_2 | done].
Defined.

(** A failure on the second page: the first page is returned. *)
Example failure_after_first_page :
  ∃ w',
    get_transactions "123456" "01-03-2024" "02-03-2024" "token"
      (fresh_world [first_page; error_response])
    = Returns example_transactions w'
    ∧ log w' = [(INFO, FetchedSoFar 2); (ERROR, FailedToFetch error_response)].
Proof. eexists. split_and!; reflexivity. Qed.

Lemma only_confirmed_returned_witness :
  ∃ ts w',
    get_transactions "123456" "01-03-2024" "02-03-2024" "token"
      (fresh_world [first_page; mixed_page; single_page])
    = Returns ts w'
    ∧ network w' = [single_page]
    ∧ ts = example_transactions ++ example_transactions
    ∧ Forall (λ t, PR_PR t = "r") ts
    ∧ ∀ page t,
        page ∈ [first_page; mixed_page] →
        Response.status page = "SUCCESS" →
        t ∈ Response.transactions page →
        (PR_PR t = "r" → t ∈ ts) ∧ (PR_PR t ≠ "r" → t ∉ ts).
Proof.
  exact (only_confirmed_returned "123456" "01-03-2024" "02-03-2024" "token"
           (fresh_world [first_page; mixed_page; single_page])
           [first_page] mixed_page [single_page] eq_refl
           (Forall_cons_2 continuing first_page [] (conj eq_refl eq_refl)
              (Forall_nil_2 continuing))
           (or_introl (conj eq_refl eq_refl))).
Defined.

(** A failure ends the loop as well: the unconfirmed transaction of the
    pages before it is not returned, the confirmed ones are. *)
Example confirmed_before_a_failure :
  ∃ w',
    get_transactions "123456" "01-03-2024" "02-03-2024" "token"
      (fresh_world
         [Response.mk "SUCCESS"
            (unconfirmed_transaction :: example_transactions) true "page-2";
          error_response])
    = Returns example_transactions w'
    ∧ unconfirmed_transaction ∉ example_transactions.
Proof.
  eexists. split; [reflexivity|].
  intros Hin. repeat (apply elem_of_cons in Hin as [Hin|Hin]; [done|]).
  by apply elem_of_nil in Hin.
Qed.


(** An account without data is skipped, the next one gets its file. *)
Example skipped_then_reported :
  ∃ w',
    @generate_report CPython.library ["77"; "123456"] "01-03-2024"
      "02-03-2024" "token" "csv"
      (fresh_world [error_response; single_page])
    = Returns () w'
    ∧ dom (files w')
      = {[ "Unknown_123456_report_01-03-2024_02-03-2024.csv" ]}
    ∧ log w'
      = [ (INFO, ProcessingAccount "77");
          (ERROR, FailedToFetch error_response);
          (WARNING, NoTransactionsFound "77");
          (INFO, ProcessingAccount "123456");
          (INFO, FetchedSoFar 2);
          (INFO, ReportGenerated "123456"
                   "Unknown_123456_report_01-03-2024_02-03-2024.csv") ].
Proof. eexists. split_and!; [vm_compute; reflexivity| |reflexivity].
  vm_compute. reflexivity. Qed.

(** * Further properties of get_transactions *)

Section fetcher_more.
Implicit Types (w : World) (data : Response.t)
  (pages responses rest : list Response.t)
  (acc ts : list Transaction) (f : option string).

Lemma continuing_or_ends data : continuing data ∨ ends_loop data.
Proof.
  unfold continuing, ends_loop, is_last_page, failed.
  destruct (decide (Response.status data = "SUCCESS"));
    destruct (Response.exist_next_page data); auto.
Qed.

Lemma ends_loop_not_continuing data : ends_loop data ↔ ¬ continuing data.
Proof.
  unfold continuing, ends_loop, is_last_page, failed. split.
  - intros [[_ Hn]|Hst] [Hst' Hn']; congruence.
  - intros Hnc. destruct (continuing_or_ends data) as [?|?]; [done|].
    done.
Qed.

(** The responses either all announce a next page, or split at the first
    one that ends the loop. *)
Lemma first_ending_response responses :
  Forall continuing responses
  ∨ ∃ pages data rest,
      responses = pages ++ data :: rest
      ∧ Forall continuing pages ∧ ends_loop data.
Proof.
  induction responses as [|data responses IH]; [by left|].
  destruct (continuing_or_ends data) as [Hc|He].
  - destruct IH as [IH|(pages & data' & rest & -> & Hpages & He)].
    + left. by constructor.
    + right. exists (data :: pages), data', rest. split_and!; [done| |done].
      by constructor.
  - right. by exists [], data, responses.
Qed.

Lemma loop_all_continuing responses a s e h acc f w :
  Forall continuing responses → network w = responses →
  get_transactions_loop responses a s e h acc f w
  = Blocks
      (mkWorld []
         (sent w ++ ((λ f, statements_request a s e f h)
                     <$> follow_ids f responses
                         ++ [next_follow_id f responses]))
         (log w ++ fetched_logs (length acc) responses)
         (files w) (refused w) (clock w) (clock_reads w)).
Proof.
  intros Hall Hnet.
  rewrite <- (app_nil_r responses) at 1.
  rewrite loop_continuing by (by rewrite ?app_nil_r).
  cbn [get_transactions_loop send sent network log files refused clock clock_reads].
  by rewrite fmap_app, app_assoc.
Qed.

(** How a call that meets a response ending the loop finishes. *)
Lemma loop_ends pages data rest a s e h acc f w :
  Forall continuing pages → network w = pages ++ data :: rest →
  ends_loop data →
  ∃ ts w',
    get_transactions_loop (pages ++ data :: rest) a s e h acc f w
    = Returns ts w'
    ∧ network w' = rest
    ∧ sent w'
      = sent w ++ ((λ f, statements_request a s e f h)
                   <$> follow_ids f (pages ++ [data]))
    ∧ files w' = files w ∧ clock w' = clock w
    ∧ clock_reads w' = clock_reads w
    ∧ ((is_last_page data
        ∧ ts = acc ++ pages_transactions (pages ++ [data])
        ∧ log w'
          = log w ++ fetched_logs (length acc) pages
            ++ [(INFO, FetchedSoFar (length ts))])
       ∨ (failed data
          ∧ ts = acc ++ pages_transactions pages
          ∧ log w'
            = log w ++ fetched_logs (length acc) pages
              ++ [(ERROR, FailedToFetch data)])).
Proof.
  intros Hpages Hnet [Hlast|Hbad]; rewrite loop_continuing by done.
  - rewrite loop_last_page by done. do 2 eexists. split; [done|].
    cbn [logging set_network send network sent log files refused clock clock_reads].
    split_and!; [done| |done..|].
    + by rewrite follow_ids_app, fmap_app, <- app_assoc.
    + left. split_and!; [done| |].
      * by rewrite pages_transactions_snoc, app_assoc.
      * by rewrite <- app_assoc.
  - rewrite loop_failed by done. do 2 eexists. split; [done|].
    cbn [logging set_network send network sent log files refused clock clock_reads].
    split_and!; [done| |done..|].
    + by rewrite follow_ids_app, fmap_app, <- app_assoc.
    + right. split_and!; [done..|]. by rewrite <- app_assoc.
Qed.

(** X1.  Over the responses of the server, [get_transactions] returns
    exactly when some response ends the loop (a failure, or a successful
    page without next page).  When every response announces a next page
    it does not return: it has sent one request per response and one
    more, and waits for the answer. *)
Theorem returns_iff_a_response_ends a s e token w :
  ((∃ ts w', get_transactions a s e token w = Returns ts w')
   ↔ Exists ends_loop (network w))
  ∧ (Forall continuing (network w) →
     ∃ w',
       get_transactions a s e token w = Blocks w'
       ∧ network w' = []
       ∧ length (sent w')
         = (length (sent w) + length (network w) + 1)%nat).
Proof.
  assert (Hblocks : Forall continuing (network w) →
    ∃ w',
      get_transactions a s e token w = Blocks w'
      ∧ network w' = []
      ∧ length (sent w') = (length (sent w) + length (network w) + 1)%nat).
  { intros Hall. unfold get_transactions.
    rewrite loop_all_continuing by done. eexists. split_and!; [done..|].
    cbn [sent]. rewrite !length_app, length_fmap, length_app.
    rewrite length_follow_ids. simpl. lia. }
  assert (Hreturns : Exists ends_loop (network w) →
    ∃ ts w', get_transactions a s e token w = Returns ts w').
  { intros Hex. destruct (first_ending_response (network w))
      as [Hall|(pages & data & rest & Hnet & Hpages & Hend)].
    - apply Exists_exists in Hex as (data & Hin & Hend).
      rewrite Forall_forall in Hall.
      by apply ends_loop_not_continuing in Hend; destruct Hend; auto.
    - unfold get_transactions. rewrite Hnet.
      destruct (loop_ends pages data rest a s e (request_headers token) []
                  None w Hpages Hnet Hend) as (ts & w' & Hrun & _).
      eauto. }
  split_and!; [split; [|done]|done].
  intros (ts & w' & Hrun).
  destruct (first_ending_response (network w))
    as [Hall|(pages & data & rest & Hnet & Hpages & Hend)].
  - destruct (Hblocks Hall) as (w'' & Hb & _). congruence.
  - rewrite Hnet. apply Exists_app. right. by left.
Qed.

(** X2.  Every call that returns has this shape: it read pages that each
    announced a next page, then one response that ended the loop, and
    nothing after it; it sent one request per response read, each with the
    [next_page_id] of the page before.  Either the last response was a
    page without next page, the result is the confirmed transactions of
    all the pages read and the last record logged counts them; or it was a
    failure, the result is that of the pages before it and the last record
    logged is the error. *)
Theorem returning_run_shape a s e token w ts w' :
  get_transactions a s e token w = Returns ts w' →
  ∃ pages data,
    network w = pages ++ data :: network w'
    ∧ Forall continuing pages
    ∧ sent w'
      = sent w ++ ((λ f, statements_request a s e f (request_headers token))
                   <$> follow_ids None (pages ++ [data]))
    ∧ ((is_last_page data
        ∧ ts = pages_transactions (pages ++ [data])
        ∧ last (log w') = Some (INFO, FetchedSoFar (length ts)))
       ∨ (failed data
          ∧ ts = pages_transactions pages
          ∧ last (log w') = Some (ERROR, FailedToFetch data))).
Proof.
  intros Hrun.
  destruct (first_ending_response (network w))
    as [Hall|(pages & data & rest & Hnet & Hpages & Hend)].
  - unfold get_transactions in Hrun.
    by rewrite loop_all_continuing in Hrun.
  - destruct (loop_ends pages data rest a s e (request_headers token) []
                None w Hpages Hnet Hend)
      as (ts' & w'' & Hrun' & Hrest & Hsent & _ & _ & _ & Hcases).
    unfold get_transactions in Hrun. rewrite Hnet in Hrun.
    change [("Content-Type", "application/json;utf8"); ("token", token)]
      with (request_headers token) in Hrun.
    rewrite Hrun' in Hrun. injection Hrun as -> ->.
    exists pages, data. rewrite Hrest. split_and!; [done..|].
    destruct Hcases as [(Hl & -> & Hlog)|(Hb & -> & Hlog)]; [left|right];
      (split_and!; [done..|]); rewrite Hlog, !app_assoc; apply last_snoc.
Qed.

(** The loop, however it ends, only appends to the requests and to the
    log, reads responses from the front, and leaves files and clock. *)
Lemma loop_frame responses a s e h acc f w :
  network w = responses →
  files (outcome_world (get_transactions_loop responses a s e h acc f w))
  = files w
  ∧ clock (outcome_world (get_transactions_loop responses a s e h acc f w))
    = clock w
  ∧ clock_reads
      (outcome_world (get_transactions_loop responses a s e h acc f w))
    = clock_reads w
  ∧ sent w `prefix_of`
      sent (outcome_world (get_transactions_loop responses a s e h acc f w))
  ∧ log w `prefix_of`
      log (outcome_world (get_transactions_loop responses a s e h acc f w))
  ∧ network (outcome_world (get_transactions_loop responses a s e h acc f w))
    `suffix_of` network w.
Proof.
  intros Hnet'.
  destruct (first_ending_response responses)
    as [Hall|(pages & data & rest & Hnet & Hpages & Hend)].
  - rewrite loop_all_continuing by done.
    cbn. split_and!; [done..| | |].
    + by apply prefix_app_r.
    + by apply prefix_app_r.
    + apply suffix_nil.
  - rewrite Hnet in Hnet'.
    destruct (loop_ends pages data rest a s e h acc f w Hpages Hnet' Hend)
      as (ts' & w'' & Hrun' & Hrest & Hsent & Hfiles & Hclock & Hreads
          & Hcases).
    rewrite Hnet, Hrun'. cbn [outcome_world].
    split_and!; [done..| | |].
    + rewrite Hsent. by apply prefix_app_r.
    + destruct Hcases as [(_ & _ & ->)|(_ & _ & ->)]; by apply prefix_app_r.
    + rewrite Hrest, Hnet'. apply suffix_app_r, suffix_cons_r. done.
Qed.

(** X3.  However it ends, a call to [get_transactions] leaves the files
    and the clock as they were, keeps the requests and the log records
    that were there (it only appends), and leaves unread a tail of the
    responses. *)
Theorem fetch_only_appends a s e token w :
  files (outcome_world (get_transactions a s e token w)) = files w
  ∧ clock (outcome_world (get_transactions a s e token w)) = clock w
  ∧ clock_reads (outcome_world (get_transactions a s e token w))
    = clock_reads w
  ∧ sent w `prefix_of` sent (outcome_world (get_transactions a s e token w))
  ∧ log w `prefix_of` log (outcome_world (get_transactions a s e token w))
  ∧ network (outcome_world (get_transactions a s e token w))
    `suffix_of` network w.
Proof.
  unfold get_transactions.
  destruct (loop_frame (network w) a s e (request_headers token) [] None w
              eq_refl) as (Hfiles & Hclock & Hreads & Hsent & Hlog & Hnet).
  split_and!; done.
Qed.
End fetcher_more.

(** * Further properties of calculate_daily_amounts *)

Section aggregator_more.
Context `{Library}.
Implicit Types (t : Transaction) (d : Date) (ts : list Transaction)
  (r : Totals).

(** What a call that returns has returned. *)
Lemma calculate_Some_inv ts sd ed now rows :
  calculate_daily_amounts ts sd ed now = Some rows →
  ∃ (start end_ : Datetime) items,
    strptime sd "%d-%m-%Y" = Some start
    ∧ effective_end ed now = Some end_
    ∧ Forall parses ts
    ∧ sorted_totals ts sd ed now = Some items
    ∧ rows = daily_amount <$> items
    ∧ StronglySorted Z.lt items.*1
    ∧ ∀ d r, (d, r) ∈ items ↔
        r = accumulate d zero_totals ts
        ∧ (Exists (λ t, day_of t = Some d) ts
           ∨ dt_date start ≤ d < dt_date start + day_count start end_).
Proof.
  unfold calculate_daily_amounts. intros Hrows.
  destruct (sorted_totals ts sd ed now) as [items|] eqn:Hitems; [|done].
  injection Hrows as <-.
  destruct (sorted_totals_inv _ _ _ _ _ Hitems)
    as (start & end_ & Hs & He & Hts).
  destruct (sorted_totals_spec ts sd ed now start end_ Hs He Hts)
    as (items' & Hitems' & _ & Hsorted & Hel).
  rewrite Hitems in Hitems'. injection Hitems' as <-.
  by exists start, end_, items.
Qed.

Lemma StronglySorted_lt_NoDup (l : list Z) :
  StronglySorted Z.lt l → NoDup l.
Proof.
  induction 1 as [|x l _ IH Hx]; constructor; [|done].
  intros Hin. rewrite Forall_forall in Hx. specialize (Hx _ Hin). lia.
Qed.

Lemma length_omap_le {A B} (f : A → option B) (l : list A) :
  (length (omap f l) ≤ length l)%nat.
Proof.
  induction l as [|x l IH]; [done|]. csimpl.
  destruct (f x); simpl; lia.
Qed.


(** X4.  One malformed field makes the whole call fail:
    [calculate_daily_amounts] raises, and returns no record at all, when
    [start_date] does not parse, or a given (non-empty) [end_date] does
    not, or some transaction, wherever it stands in the list and whatever
    the others are, has a timestamp, a [SUM] or a [SUM_E] that does not
    parse. *)
Theorem malformed_input_raises ts sd ed now :
  strptime sd "%d-%m-%Y" = None
  ∨ (∃ end_date, ed = Some end_date ∧ end_date ≠ ""
                 ∧ strptime end_date "%d-%m-%Y" = None)
  ∨ Exists (λ t, strptime (DATE_TIME_DAT_OD_TIM_P t) "%d.%m.%Y %H:%M:%S"
                 = None
                 ∨ py_float (SUM t) = None
                 ∨ py_float (SUM_E t) = None) ts →
  calculate_daily_amounts ts sd ed now = None.
Proof.
  intros Hbad.
  destruct (calculate_daily_amounts ts sd ed now) as [rows|] eqn:Hrows;
    [|done].
  apply calculate_Some_inv in Hrows
    as (start & end_ & items & Hs & He & Hts & _).
  destruct Hbad as [?|[(end_date & -> & Hne & Hend)|Hex]]; [congruence| |].
  - rewrite effective_end_given in He by done. congruence.
  - apply Exists_exists in Hex as (t & Ht & Hbad).
    rewrite Forall_forall in Hts.
    destruct (Hts t Ht) as ([d Hd] & [a Ha] & [au Hau]).
    unfold day_of in Hd.
    destruct Hbad as [Hbad|[Hbad|Hbad]]; [|congruence..].
    rewrite Hbad in Hd. done.
Qed.


(** X6.  The output has at least as many records as the nominal range has
    days, and at most that many plus one per transaction. *)
Theorem output_length_bounds ts sd ed now (start end_ : Datetime) :
  strptime sd "%d-%m-%Y" = Some start →
  effective_end ed now = Some end_ →
  Forall parses ts →
  ∃ rows,
    calculate_daily_amounts ts sd ed now = Some rows
    ∧ (Z.to_nat (day_count start end_) ≤ length rows
       ≤ Z.to_nat (day_count start end_) + length ts)%nat.
Proof.
  intros Hs He Hts.
  destruct (sorted_totals_spec ts sd ed now start end_ Hs He Hts)
    as (items & _ & Hrows & Hsorted & Hel).
  exists (daily_amount <$> items). split; [done|].
  rewrite length_fmap, <- (length_fmap fst).
  rewrite <- (length_seqZ (dt_date start) (day_count start end_)).
  split.
  - apply submseteq_length, NoDup_submseteq; [apply NoDup_seqZ|].
    intros d Hd%elem_of_seqZ. apply elem_of_keys. eexists. apply Hel.
    split; [done|]. by right.
  - etrans; [|apply Nat.add_le_mono_l, (length_omap_le day_of ts)].
    rewrite <- length_app.
    apply submseteq_length, NoDup_submseteq;
      [by apply StronglySorted_lt_NoDup|].
    intros d (r & [_ [Hex|Hd]]%Hel)%elem_of_keys; apply elem_of_app.
    + right. apply Exists_exists in Hex as (t & Ht & Hday).
      apply list_elem_of_omap. eauto.
    + left. by apply elem_of_seqZ.
Qed.

(** X7.  A returned record of a day on which no transaction falls is a
    zero record, and its day lies in the nominal range: gap filling never
    adds a day outside the range and never alters a day that has
    transactions. *)
Theorem records_without_transactions_are_zero ts sd ed now rows :
  calculate_daily_amounts ts sd ed now = Some rows →
  ∃ (start end_ : Datetime) items,
    strptime sd "%d-%m-%Y" = Some start
    ∧ effective_end ed now = Some end_
    ∧ rows = daily_amount <$> items
    ∧ ∀ d r, (d, r) ∈ items →
        (¬ Exists (λ t, day_of t = Some d) ts →
         r = zero_totals
         ∧ dt_date start ≤ d < dt_date start + day_count start end_)
        ∧ (Exists (λ t, day_of t = Some d) ts →
           r = accumulate d zero_totals ts).
Proof.
  intros (start & end_ & items & Hs & He & _ & _ & -> & _ & Hel)
    %calculate_Some_inv.
  exists start, end_, items. split_and!; [done..|].
  intros d r [-> Hd]%Hel. split; [|done].
  intros Hno. split; [by apply accumulate_no_transaction|].
  by destruct Hd.
Qed.

(** X8.  The dates of the output do not depend on the order of the
    transactions: a permutation of the list gives the same dates in the
    same order (and fails when the original fails). *)
Theorem dates_independent_of_order ts ts' sd ed now :
  ts ≡ₚ ts' →
  fmap (M:=list) date <$> calculate_daily_amounts ts sd ed now
  = fmap (M:=list) date <$> calculate_daily_amounts ts' sd ed now.
Proof.
  intros Hperm.
  destruct (calculate_daily_amounts ts sd ed now) as [rows|] eqn:Hrows.
  - apply calculate_Some_inv in Hrows
      as (start & end_ & items & Hs & He & Hts & _ & -> & Hsorted & Hel).
    rewrite Hperm in Hts.
    destruct (sorted_totals_spec ts' sd ed now start end_ Hs He Hts)
      as (items' & _ & -> & Hsorted' & Hel').
    simpl. f_equal. rewrite <- !list_fmap_compose.
    change (date ∘ daily_amount)
      with ((λ d, strftime d "%Y-%m-%d") ∘ (fst : Z * Totals → Z)).
    rewrite !(list_fmap_compose fst). f_equal.
    apply StronglySorted_lt_unique; [done..|].
    intros d. rewrite !elem_of_keys. split.
    + intros (r & [_ Hd]%Hel). eexists. apply Hel'. split; [done|].
      by rewrite <- Hperm.
    + intros (r & [_ Hd]%Hel'). eexists. apply Hel. split; [done|].
      by rewrite Hperm.
  - destruct (calculate_daily_amounts ts' sd ed now) as [rows'|] eqn:Hrows';
      [|done].
    apply calculate_Some_inv in Hrows'
      as (start & end_ & items & Hs & He & Hts & _).
    rewrite <- Hperm in Hts.
    destruct (sorted_totals_spec ts sd ed now start end_ Hs He Hts)
      as (items' & _ & Hrows'' & _). congruence.
Qed.

(** A call on a non-empty list that returns, returns a non-empty list:
    [daily_amounts[0]] exists whenever [transactions[0]] does. *)
Lemma calculate_cons_nonempty t ts sd ed now rows :
  calculate_daily_amounts (t :: ts) sd ed now = Some rows → rows ≠ [].
Proof.
  intros (start & end_ & items & _ & _ & Hts & _ & -> & _ & Hel)
    %calculate_Some_inv.
  apply Forall_cons in Hts as [([d Hd] & _) _].
  assert (Hin : (d, accumulate d zero_totals (t :: ts)) ∈ items).
  { apply Hel. split; [done|]. left. by left. }
  destruct items; [by apply elem_of_nil in Hin|done].
Qed.
End aggregator_more.

(** * Further properties of generate_report *)

Section report_more.
Context `{Library}.
Implicit Types (w : World) (t : Transaction) (ts : list Transaction)
  (account : string) (accounts : list string).

Global Instance extends_preorder : PreOrder extends.
Proof.
  split.
  - intros w. by unfold extends.
  - intros w1 w2 w3 (?&?&?&?) (?&?&?&?). unfold extends.
    split_and!; by etrans.
Qed.

Lemma extends_logging l m w : extends w (logging l m w).
Proof. unfold extends. cbn. split_and!; [done| |done..]. by apply prefix_app_r. Qed.

Lemma extends_after_clock s e w : extends w (after_clock s e w).
Proof. unfold after_clock. by destruct (reads_clock _ _). Qed.

Lemma extends_write_file file_name body w :
  extends w (write_file file_name body w).
Proof.
  unfold extends. cbn. split_and!; [done..|].
  rewrite dom_insert. set_solver.
Qed.

Lemma extends_get_transactions a s e token w :
  extends w (outcome_world (get_transactions a s e token w)).
Proof.
  unfold get_transactions.
  destruct (loop_frame (network w) a s e (request_headers token) [] None w
              eq_refl) as (Hfiles & _ & _ & Hsent & Hlog & Hnet).
  unfold extends. split_and!; [done..|].
  change [("Content-Type", "application/json;utf8"); ("token", token)]
    with (request_headers token).
  by rewrite Hfiles.
Qed.

Lemma open_w_after_clock s e file_name w :
  open_w file_name (after_clock s e w) = open_w file_name w.
Proof. unfold after_clock. by destruct (reads_clock _ _). Qed.

(** The three ways in which the report of an account with data ends: the
    aggregation raises, the file cannot be opened, or the file is
    written. *)
Lemma write_report_cases account s e format t ts w :
  (calculate_daily_amounts (t :: ts) s (Some e) (datetime_now w) = None
   ∧ write_report account s e format (t :: ts) w
     = Raises ValueError (after_clock s e w))
  ∨ (∃ rows e',
       calculate_daily_amounts (t :: ts) s (Some e) (datetime_now w)
       = Some rows
       ∧ open_w (report_file_name (default "Unknown" (AUT_MY_NAM t))
                   account s e (report_ext format)) w = Some e'
       ∧ e' ≠ IndexError
       ∧ write_report account s e format (t :: ts) w
         = Raises e' (after_clock s e w))
  ∨ (∃ rows,
       calculate_daily_amounts (t :: ts) s (Some e) (datetime_now w)
       = Some rows
       ∧ open_w (report_file_name (default "Unknown" (AUT_MY_NAM t))
                   account s e (report_ext format)) w = None
       ∧ write_report account s e format (t :: ts) w
         = Returns tt
             (logging INFO
                (ReportGenerated account
                   (report_file_name (default "Unknown" (AUT_MY_NAM t))
                      account s e (report_ext format)))
                (write_file
                   (report_file_name (default "Unknown" (AUT_MY_NAM t))
                      account s e (report_ext format))
                   (report_body format rows) (after_clock s e w)))).
Proof.
  destruct (calculate_daily_amounts (t :: ts) s (Some e) (datetime_now w))
    as [rows|] eqn:Hrows.
  - right.
    pose proof (calculate_cons_nonempty _ _ _ _ _ _ Hrows) as Hne.
    pose proof (open_w_after_clock s e
      (report_file_name (default "Unknown" (AUT_MY_NAM t)) account s e
         (report_ext format)) w) as Hopen.
    unfold write_report. rewrite Hrows.
    unfold after_clock, report_ext, report_body in *.
    destruct (decide (lower format = "csv")).
    + destruct (open_w _ w) as [e'|] eqn:Hw; rewrite Hopen.
      * left. exists rows, e'. split_and!; [done..| |done].
        unfold open_w in Hw. repeat case_match; congruence.
      * right. exists rows. split_and!; [done..|]. by destruct rows.
    + destruct (open_w _ w) as [e'|] eqn:Hw; rewrite Hopen.
      * left. exists rows, e'. split_and!; [done..| |done].
        unfold open_w in Hw. repeat case_match; congruence.
      * right. exists rows. by split_and!.
  - left. split; [done|]. unfold write_report. by rewrite Hrows.
Qed.



(** X11.  When the aggregation of an account raises (a malformed date or
    amount), [generate_report] raises [ValueError] at once: no file is
    written for the account, and the remaining accounts are not
    processed: no request is sent for them and nothing more is logged. *)
Theorem malformed_data_aborts_the_run account accounts s e token format
    w w1 t ts :
  get_transactions account s e token
    (logging INFO (ProcessingAccount account) w) = Returns (t :: ts) w1 →
  calculate_daily_amounts (t :: ts) s (Some e) (datetime_now w1) = None →
  ∃ w2,
    generate_report (account :: accounts) s e token format w
    = Raises ValueError w2
    ∧ sent w2 = sent w1 ∧ log w2 = log w1 ∧ network w2 = network w1
    ∧ files w2 = files w.
Proof.
  intros Hget Hnone. cbn [generate_report]. rewrite Hget.
  destruct (write_report_cases account s e format t ts w1)
    as [[_ ->]|[(rows' & e' & Hrows' & _)|(rows' & Hrows' & _)]];
    [|congruence..].
  eexists. split; [done|].
  pose proof (loop_returns_inv _ _ _ _ _ _ _ _ _ _ Hget)
    as (_ & _ & _ & Hfiles & _).
  unfold after_clock. by destruct (reads_clock _ _).
Qed.

(** X20.  When [open] does not accept the name of the report file of an
    account, [generate_report] raises what [open] raises, an [OSError] or,
    for a name with a NUL character, a [ValueError]: the aggregation has
    been done, but no file is written and nothing is logged for the
    account, and the remaining accounts are not processed. *)
Theorem unwritable_report_aborts_the_run account accounts s e token format
    w w1 t ts rows e' :
  get_transactions account s e token
    (logging INFO (ProcessingAccount account) w) = Returns (t :: ts) w1 →
  calculate_daily_amounts (t :: ts) s (Some e) (datetime_now w1)
  = Some rows →
  open_w (default "Unknown" (AUT_MY_NAM t) +:+ "_" +:+ account
          +:+ "_report_" +:+ s +:+ "_" +:+ e
          +:+ (if decide (lower format = "csv") then ".csv" else ".json"))
    w1 = Some e' →
  ∃ w2,
    generate_report (account :: accounts) s e token format w = Raises e' w2
    ∧ (e' = OSError ∨ e' = ValueError)
    ∧ sent w2 = sent w1 ∧ log w2 = log w1 ∧ network w2 = network w1
    ∧ files w2 = files w.
Proof.
  intros Hget Hrows Hopen. cbn [generate_report]. rewrite Hget.
  destruct (write_report_cases account s e format t ts w1)
    as [[Hnone _]|[(rows' & e'' & _ & Hopen' & Hne & ->)
                  |(rows' & _ & Hopen' & _)]];
    [congruence| |unfold report_file_name, report_ext in Hopen'; congruence].
  unfold report_file_name, report_ext in Hopen'.
  rewrite Hopen in Hopen'. injection Hopen' as <-.
  eexists. split; [done|]. split.
  { destruct e'; auto. done. }
  pose proof (loop_returns_inv _ _ _ _ _ _ _ _ _ _ Hget)
    as (_ & _ & _ & Hfiles & _).
  unfold after_clock. by destruct (reads_clock _ _).
Qed.

Lemma get_transactions_never_raises a s e token w e' w' :
  get_transactions a s e token w ≠ Raises e' w'.
Proof.
  unfold get_transactions.
  destruct (first_ending_response (network w))
    as [Hall|(pages & data & rest & Hnet & Hpages & Hend)].
  - by rewrite loop_all_continuing.
  - rewrite Hnet.
    destruct (loop_ends pages data rest a s e (request_headers token) []
                None w Hpages Hnet Hend) as (ts & w'' & Hrun & _).
    change [("Content-Type", "application/json;utf8"); ("token", token)]
      with (request_headers token).
    by rewrite Hrun.
Qed.

Lemma files_after_clock s e w : files (after_clock s e w) = files w.
Proof. unfold after_clock. by destruct (reads_clock _ _). Qed.

Lemma files_get_transactions a s e token w :
  files (outcome_world (get_transactions a s e token w)) = files w.
Proof.
  unfold get_transactions.
  by destruct (loop_frame (network w) a s e (request_headers token) [] None w
                 eq_refl) as (Hfiles & _).
Qed.

(** X12.  [generate_report] never raises [IndexError]: [transactions[0]]
    and [daily_amounts[0]] are evaluated on non-empty lists only, since an
    account goes past the [continue] only with a transaction, and the
    aggregation of a non-empty list, when it returns, returns at least one
    record. *)
Theorem IndexError_is_never_raised accounts s e token format w :
  (∀ t ts sd ed now,
     calculate_daily_amounts (t :: ts) sd ed now ≠ Some [])
  ∧ ∀ w', generate_report accounts s e token format w ≠ Raises IndexError w'.
Proof.
  split.
  { intros t ts sd ed now Hrows.
    by apply calculate_cons_nonempty in Hrows. }
  revert w. induction accounts as [|account accounts IH]; intros w w';
    [done|].
  cbn [generate_report].
  destruct (get_transactions account s e token _) as [ts w1|e' w1|w1]
    eqn:Hget; [|by apply get_transactions_never_raises in Hget|done].
  destruct ts as [|t ts]; [apply IH|].
  destruct (write_report_cases account s e format t ts w1)
    as [[_ ->]|[(rows & e' & _ & _ & Hne & ->)|(rows & _ & _ & ->)]];
    [done|congruence|apply IH].
Qed.

Lemma generate_report_inv accounts s e token format w :
  extends w (outcome_world (generate_report accounts s e token format w))
  ∧ ∀ k,
      k ∈ dom (files
                 (outcome_world
                    (generate_report accounts s e token format w))) →
      k ∈ dom (files w)
      ∨ ∃ account name,
          account ∈ accounts
          ∧ k = report_file_name name account s e (report_ext format).
Proof.
  revert w. induction accounts as [|account accounts IH]; intros w.
  { cbn. split; [reflexivity|auto]. }
  cbn [generate_report].
  pose proof (extends_get_transactions account s e token
                (logging INFO (ProcessingAccount account) w)) as Hext.
  pose proof (files_get_transactions account s e token
                (logging INFO (ProcessingAccount account) w)) as Hfiles.
  assert (Hw : extends w (logging INFO (ProcessingAccount account) w))
    by apply extends_logging.
  destruct (get_transactions account s e token _) as [ts w1|e' w1|w1];
    cbn [outcome_world] in Hext, Hfiles; cbn [logging files] in Hfiles.
  - destruct ts as [|t ts].
    + destruct (IH (logging WARNING (NoTransactionsFound account) w1))
        as [IHext IHfiles]. split.
      * etrans; [exact Hw|]. etrans; [exact Hext|].
        etrans; [apply extends_logging|]. exact IHext.
      * intros k Hk. destruct (IHfiles k Hk) as [Hk'|(a & n & Ha & ->)].
        -- left. cbn [logging files] in Hk'. by rewrite <- Hfiles.
        -- right. exists a, n. split; [by right|done].
    + destruct (write_report_cases account s e format t ts w1)
        as [[_ ->]|[(rows & e' & _ & _ & _ & ->)|(rows & _ & _ & ->)]].
      * cbn [outcome_world]. split.
        -- etrans; [exact Hw|]. etrans; [exact Hext|].
           apply extends_after_clock.
        -- intros k Hk. left. by rewrite files_after_clock, Hfiles in Hk.
      * cbn [outcome_world]. split.
        -- etrans; [exact Hw|]. etrans; [exact Hext|].
           apply extends_after_clock.
        -- intros k Hk. left. by rewrite files_after_clock, Hfiles in Hk.
      * destruct (IH (logging INFO
           (ReportGenerated account
              (report_file_name (default "Unknown" (AUT_MY_NAM t)) account
                 s e (report_ext format)))
           (write_file
              (report_file_name (default "Unknown" (AUT_MY_NAM t)) account
                 s e (report_ext format))
              (report_body format rows) (after_clock s e w1))))
          as [IHext IHfiles]. split.
        -- etrans; [exact Hw|]. etrans; [exact Hext|].
           etrans; [apply extends_after_clock|].
           etrans; [apply extends_write_file|].
           etrans; [apply extends_logging|]. exact IHext.
        -- intros k Hk. destruct (IHfiles k Hk) as [Hk'|(a & n & Ha & ->)].
           ++ cbn [logging write_file files] in Hk'.
              rewrite dom_insert, files_after_clock, Hfiles in Hk'.
              apply elem_of_union in Hk' as [->%elem_of_singleton|Hk'];
                [|by left].
              right. eexists _, _. split; [by left|done].
           ++ right. exists a, n. split; [by right|done].
  - cbn [outcome_world]. split; [by etrans|].
    intros k Hk. left. by rewrite Hfiles in Hk.
  - cbn [outcome_world]. split; [by etrans|].
    intros k Hk. left. by rewrite Hfiles in Hk.
Qed.

(** X13.  However it ends, [generate_report] only appends to the requests
    sent and to the log, reads responses from the front, and keeps every
    file that was there (it may replace its content); and every file it
    creates is named [<name>_<account>_report_<start>_<end>] with the
    extension of the format, for one of the accounts given. *)
Theorem report_only_adds_report_files accounts s e token format w :
  sent w `prefix_of`
    sent (outcome_world (generate_report accounts s e token format w))
  ∧ log w `prefix_of`
      log (outcome_world (generate_report accounts s e token format w))
  ∧ network (outcome_world (generate_report accounts s e token format w))
    `suffix_of` network w
  ∧ dom (files w)
    ⊆ dom (files
             (outcome_world (generate_report accounts s e token format w)))
  ∧ ∀ k,
      k ∈ dom (files
                 (outcome_world
                    (generate_report accounts s e token format w))) →
      k ∉ dom (files w) →
      ∃ account name,
        account ∈ accounts
        ∧ k = name +:+ "_" +:+ account +:+ "_report_" +:+ s +:+ "_" +:+ e
              +:+ (if decide (lower format = "csv") then ".csv"
                   else ".json").
Proof.
  destruct (generate_report_inv accounts s e token format w)
    as [(Hsent & Hlog & Hnet & Hdom) Hnew].
  split_and!; [done..|].
  intros k Hk Hnot. destruct (Hnew k Hk) as [?|(account & name & Ha & ->)];
    [done|].
  by exists account, name.
Qed.

(** X14.  When the first response to each account is a failure, every
    account is skipped: [generate_report] returns after one request per
    account, has written no file, has read one response per account, and
    has logged for each account, in order, that it is processed, the
    error, and the warning. *)
Theorem failed_fetches_write_nothing accounts bads rest s e token format w :
  network w = bads ++ rest →
  length bads = length accounts →
  Forall failed bads →
  ∃ w',
    generate_report accounts s e token format w = Returns tt w'
    ∧ files w' = files w
    ∧ network w' = rest
    ∧ length (sent w') = (length (sent w) + length accounts)%nat
    ∧ log w'
      = log w ++ (zip accounts bads ≫= λ ab, skipped_logs ab.1 ab.2).
Proof.
  revert bads w. induction accounts as [|account accounts IH];
    intros bads w Hnet Hlen Hbads.
  { destruct bads; [|done]. exists w. cbn. split_and!; [done..| |].
    - lia.
    - by rewrite app_nil_r. }
  destruct Hbads as [|bad bads Hbad Hbads]; [done|].
  cbn [generate_report]. unfold get_transactions.
  cbn [logging network]. rewrite Hnet. cbn [app].
  rewrite loop_failed by done.
  edestruct (IH bads) as (w' & Hrun & Hfiles & Hrest & Hsent & Hlog);
    [| |done|].
  3:{ exists w'. split; [exact Hrun|]. split_and!.
      - by rewrite Hfiles.
      - done.
      - rewrite Hsent. cbn. rewrite length_app. simpl. lia.
      - rewrite Hlog. cbn. by rewrite <- !app_assoc. }
  - done.
  - simpl in Hlen. lia.
Qed.
End report_more.

(** * Properties of read_token_from_file and of the main program *)

Section startup_facts.
Context (isspace : ascii → bool).
Implicit Types (cs pre post : list ascii) (c : ascii).

Lemma list_ascii_of_string_app (s1 s2 : string) :
  list_ascii_of_string (s1 +:+ s2)
  = list_ascii_of_string s1 ++ list_ascii_of_string s2.
Proof. induction s1 as [|c s1 IH]; simpl; [done|]. by rewrite IH. Qed.

Lemma string_of_list_ascii_app cs1 cs2 :
  string_of_list_ascii (cs1 ++ cs2)
  = string_of_list_ascii cs1 +:+ string_of_list_ascii cs2.
Proof. induction cs1 as [|c cs1 IH]; simpl; [done|]. by rewrite IH. Qed.

Lemma lstrip_split cs :
  ∃ pre, cs = pre ++ lstrip isspace cs ∧ Forall (λ c, isspace c = true) pre.
Proof.
  induction cs as [|c cs (pre & Hcs & Hpre)]; [by exists []|]. simpl.
  destruct (isspace c) eqn:Hc.
  - exists (c :: pre). split; [by rewrite Hcs at 1|by constructor].
  - by exists [].
Qed.

Lemma lstrip_head cs c :
  head (lstrip isspace cs) = Some c → isspace c = false.
Proof.
  induction cs as [|c' cs IH]; simpl; [done|].
  destruct (isspace c') eqn:Hc; [done|]. by intros [= <-].
Qed.

Lemma lstrip_blank_app pre cs :
  Forall (λ c, isspace c = true) pre →
  lstrip isspace (pre ++ cs) = lstrip isspace cs.
Proof. induction 1 as [|c pre Hc _ IH]; simpl; [done|]. by rewrite Hc. Qed.

Lemma lstrip_trimmed_head cs :
  (∀ c, head cs = Some c → isspace c = false) → lstrip isspace cs = cs.
Proof. destruct cs as [|c cs]; simpl; [done|]. intros Hc. by rewrite Hc. Qed.

Lemma lstrip_blank cs :
  Forall (λ c, isspace c = true) cs → lstrip isspace cs = [].
Proof.
  intros Hcs. rewrite <- (app_nil_r cs). by rewrite lstrip_blank_app.
Qed.

(** Whitespace around a text without whitespace at its ends is removed,
    and nothing else. *)
Lemma strip_chars pre cs post :
  Forall (λ c, isspace c = true) pre →
  Forall (λ c, isspace c = true) post →
  (∀ c, head cs = Some c → isspace c = false) →
  (∀ c, last cs = Some c → isspace c = false) →
  rstrip isspace (lstrip isspace (pre ++ cs ++ post)) = cs.
Proof.
  intros Hpre Hpost Hhead Hlast. rewrite lstrip_blank_app by done.
  destruct cs as [|c cs].
  - simpl. rewrite lstrip_blank by done. done.
  - rewrite lstrip_trimmed_head by (simpl; auto).
    unfold rstrip. rewrite reverse_app.
    rewrite lstrip_blank_app by (by apply Forall_reverse).
    rewrite lstrip_trimmed_head; [apply reverse_involutive|].
    intros c'. rewrite head_reverse. apply Hlast.
Qed.

(** What [strip] returns, and what it removed. *)
Lemma strip_chars_inv cs :
  ∃ pre post,
    cs = pre ++ rstrip isspace (lstrip isspace cs) ++ post
    ∧ Forall (λ c, isspace c = true) pre
    ∧ Forall (λ c, isspace c = true) post
    ∧ (∀ c, head (rstrip isspace (lstrip isspace cs)) = Some c →
            isspace c = false)
    ∧ (∀ c, last (rstrip isspace (lstrip isspace cs)) = Some c →
            isspace c = false).
Proof.
  destruct (lstrip_split cs) as (pre & Hcs & Hpre).
  destruct (lstrip_split (reverse (lstrip isspace cs)))
    as (post & Hrev & Hpost).
  assert (Hmid : lstrip isspace cs
                 = rstrip isspace (lstrip isspace cs) ++ reverse post).
  { unfold rstrip. rewrite <- reverse_app, <- Hrev.
    by rewrite reverse_involutive. }
  exists pre, (reverse post). split_and!.
  - by rewrite <- Hmid.
  - done.
  - by apply Forall_reverse.
  - intros c Hc. apply (lstrip_head cs). rewrite Hmid.
    destruct (rstrip isspace (lstrip isspace cs)); [done|]. exact Hc.
  - intros c. unfold rstrip. rewrite last_reverse. apply lstrip_head.
Qed.

(** X15.  [read_token_from_file] yields a token exactly when the file can
    be read and its text is that token between two stretches of whitespace
    (as a final newline), the token having no whitespace at either end;
    it exits with the token-file error exactly when the file cannot be
    read. *)
Theorem token_is_the_text_without_surrounding_whitespace
    (read_text : string → option string) (file_path token : string) :
  (read_token_from_file isspace read_text file_path = Proceed token
   ↔ ∃ pre post : string,
       read_text file_path = Some (pre +:+ token +:+ post)
       ∧ blank isspace pre ∧ blank isspace post ∧ trimmed isspace token)
  ∧ (read_token_from_file isspace read_text file_path
     = SysExit TokenFileError
     ↔ read_text file_path = None).
Proof.
  unfold read_token_from_file, blank, trimmed. split; [split|].
  - destruct (read_text file_path) as [content|]; [|done].
    intros [= <-]. unfold strip.
    destruct (strip_chars_inv (list_ascii_of_string content))
      as (pre & post & Hcs & Hpre & Hpost & Hhead & Hlast).
    exists (string_of_list_ascii pre), (string_of_list_ascii post).
    rewrite !list_ascii_of_string_of_list_ascii. split_and!; [|done..].
    f_equal. rewrite <- !string_of_list_ascii_app, <- Hcs.
    by rewrite string_of_list_ascii_of_string.
  - intros (pre & post & -> & Hpre & Hpost & Hhead & Hlast). f_equal.
    unfold strip. rewrite !list_ascii_of_string_app.
    rewrite strip_chars by done. apply string_of_list_ascii_of_string.
  - destruct (read_text file_path); split; done.
Qed.
End startup_facts.

Section main_facts.
Context `{Library} (isspace : ascii → bool)
  (read_text : string → option string).
Implicit Types (w : World) (accounts : list string) (args : Args.t).

Lemma get_transactions_sent a s e token w :
  ∃ fs,
    sent (outcome_world (get_transactions a s e token w))
    = sent w ++ ((λ f, statements_request a s e f (request_headers token))
                 <$> fs).
Proof.
  unfold get_transactions.
  change [("Content-Type", "application/json;utf8"); ("token", token)]
    with (request_headers token).
  destruct (first_ending_response (network w))
    as [Hall|(pages & data & rest & Hnet & Hpages & Hend)].
  - rewrite loop_all_continuing by done. by eexists.
  - rewrite Hnet.
    destruct (loop_ends pages data rest a s e (request_headers token) []
                None w Hpages Hnet Hend)
      as (ts & w' & -> & _ & Hsent & _). by eexists.
Qed.

Lemma sent_after_clock s e w : sent (after_clock s e w) = sent w.
Proof. unfold after_clock. by destruct (reads_clock _ _). Qed.

Lemma generate_report_sent accounts s e token format w :
  ∃ new,
    sent (outcome_world (generate_report accounts s e token format w))
    = sent w ++ new
    ∧ Forall (λ r, ∃ account f,
                account ∈ accounts
                ∧ r = statements_request account s e f
                        (request_headers token)) new.
Proof.
  revert w. induction accounts as [|account accounts IH]; intros w.
  { exists []. cbn. by rewrite app_nil_r. }
  assert (Hmono : ∀ new,
    Forall (λ r, ∃ account' f,
              account' ∈ accounts
              ∧ r = statements_request account' s e f
                      (request_headers token)) new →
    Forall (λ r, ∃ account' f,
              account' ∈ account :: accounts
              ∧ r = statements_request account' s e f
                      (request_headers token)) new).
  { intros new Hnew. apply (Forall_impl _ _ _ Hnew).
    intros r (a & f & Ha & ->).
    exists a, f. split; [by right|done]. }
  cbn [generate_report].
  destruct (get_transactions_sent account s e token
              (logging INFO (ProcessingAccount account) w)) as (fs & Hfs).
  cbn [logging sent] in Hfs.
  assert (Hfetched :
    Forall (λ r, ∃ account' f,
              account' ∈ account :: accounts
              ∧ r = statements_request account' s e f
                      (request_headers token))
      ((λ f, statements_request account s e f (request_headers token))
       <$> fs)).
  { apply Forall_fmap, Forall_forall. intros f _. exists account, f.
    split; [by left|done]. }
  destruct (get_transactions account s e token _) as [ts w1|e' w1|w1];
    cbn [outcome_world] in Hfs.
  - destruct ts as [|t ts].
    + destruct (IH (logging WARNING (NoTransactionsFound account) w1))
        as (new & -> & Hnew). cbn [logging sent]. rewrite Hfs.
      eexists. rewrite <- app_assoc. split; [done|].
      apply Forall_app. auto.
    + destruct (write_report_cases account s e format t ts w1)
        as [[_ ->]|[(rows & e' & _ & _ & _ & ->)|(rows & _ & _ & ->)]].
      * cbn [outcome_world]. rewrite sent_after_clock, Hfs. eauto.
      * cbn [outcome_world]. rewrite sent_after_clock, Hfs. eauto.
      * destruct (IH (logging INFO
           (ReportGenerated account
              (report_file_name (default "Unknown" (AUT_MY_NAM t)) account
                 s e (report_ext format)))
           (write_file
              (report_file_name (default "Unknown" (AUT_MY_NAM t)) account
                 s e (report_ext format))
              (report_body format rows) (after_clock s e w1))))
          as (new & -> & Hnew).
        cbn [logging write_file sent]. rewrite sent_after_clock, Hfs.
        eexists. rewrite <- app_assoc. split; [done|].
        apply Forall_app. auto.
  - cbn [outcome_world]. rewrite Hfs. eauto.
  - cbn [outcome_world]. rewrite Hfs. eauto.
Qed.

(** X16.  Every request [generate_report] sends asks the statements
    endpoint for one of the accounts given, with the dates given, and
    carries the token in its headers. *)
Theorem requests_query_the_accounts_with_the_token accounts s e token
    format w :
  ∃ new,
    sent (outcome_world (generate_report accounts s e token format w))
    = sent w ++ new
    ∧ Forall (λ r,
        headers r
        = [("Content-Type", "application/json;utf8"); ("token", token)]
        ∧ ∃ account follow_id,
            account ∈ accounts
            ∧ url r
              = "https://acp.privatbank.ua/api/statements/transactions"
                +:+ "?acc=" +:+ account +:+ "&startDate=" +:+ s
                +:+ "&endDate=" +:+ e +:+ "&followId=" +:+ follow_id) new.
Proof.
  destruct (generate_report_sent accounts s e token format w)
    as (new & Hsent & Hnew).
  exists new. split; [done|].
  apply (Forall_impl _ _ _ Hnew). intros r (account & f & Ha & ->).
  split; [done|]. by eexists account, _.
Qed.

(** X17.  When the main program runs the report, the token of every
    request is the text of the token file without its surrounding
    whitespace whenever a token file is named, even if [--token] is given
    too, and otherwise the [--token] argument as it is. *)
Theorem main_sends_the_resolved_token args w o :
  main isspace read_text args w = Ran o →
  ∃ token new,
    ((Args.token_file args ≠ ""
      ∧ ∃ content,
          read_text (Args.token_file args) = Some content
          ∧ token = strip isspace content)
     ∨ (Args.token_file args = "" ∧ Args.token args ≠ ""
        ∧ token = Args.token args))
    ∧ o = generate_report (Args.accounts args) (Args.start_date args)
            (Args.end_date args) token (Args.format args) w
    ∧ sent (outcome_world o) = sent w ++ new
    ∧ Forall (λ r,
        headers r
        = [("Content-Type", "application/json;utf8"); ("token", token)])
        new.
Proof.
  unfold main, resolve_token, read_token_from_file. simpl.
  destruct (String.eqb_spec (Args.token args) "") as [Htok|Htok];
    destruct (String.eqb_spec (Args.token_file args) "") as [Hfile|Hfile];
    simpl; [done|..].
  - destruct (read_text (Args.token_file args)) as [content|] eqn:Hread;
      [|done].
    intros [= <-].
    destruct (generate_report_sent (Args.accounts args)
                (Args.start_date args) (Args.end_date args)
                (strip isspace content) (Args.format args) w)
      as (new & Hsent & Hnew).
    exists (strip isspace content), new. split_and!; [left; eauto|done..|].
    apply (Forall_impl _ _ _ Hnew). by intros r (account & f & _ & ->).
  - intros [= <-].
    destruct (generate_report_sent (Args.accounts args)
                (Args.start_date args) (Args.end_date args)
                (Args.token args) (Args.format args) w)
      as (new & Hsent & Hnew).
    exists (Args.token args), new. split_and!; [by right|done..|].
    apply (Forall_impl _ _ _ Hnew). by intros r (account & f & _ & ->).
  - destruct (read_text (Args.token_file args)) as [content|] eqn:Hread;
      [|done].
    intros [= <-].
    destruct (generate_report_sent (Args.accounts args)
                (Args.start_date args) (Args.end_date args)
                (strip isspace content) (Args.format args) w)
      as (new & Hsent & Hnew).
    exists (strip isspace content), new. split_and!; [left; eauto|done..|].
    apply (Forall_impl _ _ _ Hnew). by intros r (account & f & _ & ->).
Qed.

(** X18.  The main program exits before any report exactly in two cases:
    with the usage error (status 2) when neither a token nor a token file
    is given, and with the token-file error (status 1) when a token file
    is named and cannot be read, whether or not [--token] is given. *)
Theorem main_exits_iff_no_token args w e :
  main isspace read_text args w = Exited e ↔
  (Args.token args = "" ∧ Args.token_file args = "" ∧ e = UsageError
   ∧ exit_status e = 2)
  ∨ (Args.token_file args ≠ "" ∧ read_text (Args.token_file args) = None
     ∧ e = TokenFileError ∧ exit_status e = 1).
Proof.
  unfold main, resolve_token, read_token_from_file. simpl.
  destruct (String.eqb_spec (Args.token args) "") as [Htok|Htok];
    destruct (String.eqb_spec (Args.token_file args) "") as [Hfile|Hfile];
    simpl.
  - split; [intros [= <-]; by left|]. intros [(_&_&->&_)|(?&_)]; done.
  - destruct (read_text (Args.token_file args)) as [content|] eqn:Hread.
    + split; [done|]. intros [(_&?&_)|(_&?&_)]; done.
    + split; [intros [= <-]; by right|].
      intros [(_&?&_)|(_&_&->&_)]; done.
  - split; [done|]. intros [(?&_)|(?&_)]; done.
  - destruct (read_text (Args.token_file args)) as [content|] eqn:Hread.
    + split; [done|]. intros [(?&_)|(_&?&_)]; done.
    + split; [intros [= <-]; by right|].
      intros [(?&_)|(_&_&->&_)]; done.
Qed.
End main_facts.

(** * The default start date *)

Section calendar_facts.
Lemma ord2ymd_parts n :
  ∃ n400 n100 n4 n1 r,
    n - 1 = 146097 * n400 + 36524 * n100 + 1461 * n4 + 365 * n1 + r
    ∧ 0 ≤ n100 ≤ 4 ∧ 0 ≤ n4 ≤ 24 ∧ 0 ≤ n1 ≤ 4 ∧ 0 ≤ r < 365
    ∧ (n100 = 4 → n4 = 0 ∧ n1 = 0 ∧ r = 0)
    ∧ (n1 = 4 → r = 0)
    ∧ 1461 * n4 + 365 * n1 + r < 36524
    ∧ (1 ≤ n → 0 ≤ n400)
    ∧ CPython.ord2ymd n
      = if bool_decide (n1 = 4 ∨ n100 = 4)
        then (year_of_parts n400 n100 n4 n1 - 1, 12, 31)
        else (year_of_parts n400 n100 n4 n1,
              (month_day (bool_decide (n1 = 3 ∧ (n4 ≠ 24 ∨ n100 = 3))) r).1,
              (month_day (bool_decide (n1 = 3 ∧ (n4 ≠ 24 ∨ n100 = 3))) r).2).
Proof.
  exists ((n - 1) / 146097), ((n - 1) mod 146097 / 36524),
    ((n - 1) mod 146097 mod 36524 / 1461),
    ((n - 1) mod 146097 mod 36524 mod 1461 / 365),
    ((n - 1) mod 146097 mod 36524 mod 1461 mod 365).
  split_and!; try (Z.div_mod_to_equations; lia).
  unfold CPython.ord2ymd, CPython.DI400Y, CPython.DI100Y, CPython.DI4Y,
    year_of_parts, month_day.
  cbv zeta. cbv beta iota.
  destruct (bool_decide (_ ∨ _)); [done|].
  destruct (bool_decide (_ < _)); done.
Qed.

Lemma all_from_spec f fuel n i :
  all_from f fuel n = true → n ≤ i < n + Z.of_nat fuel → f i = true.
Proof.
  revert n. induction fuel as [|fuel IH]; intros n; simpl; [lia|].
  intros [Hn Hrest]%andb_prop Hi.
  destruct (decide (i = n)) as [->|Hne]; [done|].
  apply (IH (n + 1)); [done|lia].
Qed.

Lemma month_day_table :
  all_from (month_day_ok false) 365 0 = true
  ∧ all_from (month_day_ok true) 365 0 = true.
Proof. split; vm_compute; reflexivity. Qed.

Lemma month_day_spec leap r :
  0 ≤ r < 365 →
  1 ≤ (month_day leap r).1 ≤ 12
  ∧ 1 ≤ (month_day leap r).2 ≤ 31
  ∧ dbm_flag leap (month_day leap r).1 + (month_day leap r).2 = r + 1.
Proof.
  intros Hr. destruct month_day_table as [Hf Ht].
  assert (Hok : month_day_ok leap r = true).
  { destruct leap; [apply (all_from_spec _ _ _ _ Ht)
                   |apply (all_from_spec _ _ _ _ Hf)]; lia. }
  unfold month_day_ok in Hok. cbv zeta in Hok.
  repeat (apply andb_prop in Hok as [Hok ?]). lia.
Qed.

Lemma is_leap_parts n400 n100 n4 n1 :
  0 ≤ n100 ≤ 3 → 0 ≤ n4 ≤ 24 → 0 ≤ n1 ≤ 3 →
  CPython.is_leap (year_of_parts n400 n100 n4 n1)
  = bool_decide (n1 = 3 ∧ (n4 ≠ 24 ∨ n100 = 3)).
Proof.
  intros ???. unfold CPython.is_leap, year_of_parts.
  apply bool_decide_ext. Z.div_mod_to_equations. lia.
Qed.

Lemma days_before_year_parts n400 n100 n4 n1 :
  0 ≤ n100 ≤ 3 → 0 ≤ n4 ≤ 24 → 0 ≤ n1 ≤ 3 →
  CPython.days_before_year (year_of_parts n400 n100 n4 n1)
  = 146097 * n400 + 36524 * n100 + 1461 * n4 + 365 * n1.
Proof.
  intros ???. unfold CPython.days_before_year, year_of_parts.
  cbv zeta. Z.div_mod_to_equations. lia.
Qed.

Lemma ymd2ord_flag y m d :
  CPython.ymd2ord y m d
  = CPython.days_before_year y + dbm_flag (CPython.is_leap y) m + d.
Proof. done. Qed.

(** The date of an ordinal is a date, and has that ordinal. *)
Lemma ord2ymd_spec n :
  1 ≤ n →
  1 ≤ (CPython.ord2ymd n).1.1
  ∧ 1 ≤ (CPython.ord2ymd n).1.2 ≤ 12
  ∧ 1 ≤ (CPython.ord2ymd n).2 ≤ 31
  ∧ CPython.ymd2ord (CPython.ord2ymd n).1.1 (CPython.ord2ymd n).1.2
      (CPython.ord2ymd n).2 = n.
Proof.
  intros Hn.
  destruct (ord2ymd_parts n)
    as (n400 & n100 & n4 & n1 & r & Hparts & H100 & H4 & H1 & Hr & Hc100
        & Hc1 & Hrem & Hpos & ->).
  specialize (Hpos Hn).
  case_bool_decide as Hend.
  - cbn [fst snd]. split_and!; try lia.
    { unfold year_of_parts. lia. }
    rewrite ymd2ord_flag.
    destruct (decide (n100 = 4)) as [->|Hne].
    + destruct (Hc100 eq_refl) as (-> & -> & ->).
      replace (year_of_parts n400 4 0 0 - 1)
        with (year_of_parts n400 3 24 3) by (unfold year_of_parts; lia).
      rewrite is_leap_parts, days_before_year_parts by lia.
      rewrite bool_decide_true by auto. vm_compute dbm_flag. lia.
    + assert (n1 = 4) as -> by lia. rewrite (Hc1 eq_refl) in *.
      replace (year_of_parts n400 n100 n4 4 - 1)
        with (year_of_parts n400 n100 n4 3) by (unfold year_of_parts; lia).
      rewrite is_leap_parts, days_before_year_parts by lia.
      rewrite bool_decide_true by (split; [done|]; left; lia).
      vm_compute dbm_flag. lia.
  - assert (n1 ≤ 3 ∧ n100 ≤ 3) as [??] by lia.
    cbn [fst snd].
    destruct (month_day_spec (bool_decide (n1 = 3 ∧ (n4 ≠ 24 ∨ n100 = 3))) r
                Hr) as (Hm & Hd & Hsum).
    split_and!; try lia.
    { unfold year_of_parts. lia. }
    rewrite ymd2ord_flag, is_leap_parts, days_before_year_parts by lia.
    lia.
Qed.

Lemma ord2ymd_shift n k :
  CPython.ord2ymd (n + 146097 * k) = shift_years k (CPython.ord2ymd n).
Proof.
  unfold CPython.ord2ymd, CPython.DI400Y, CPython.DI100Y, CPython.DI4Y,
    shift_years.
  replace (n + 146097 * k - 1) with (n - 1 + k * 146097) by lia.
  rewrite Z_div_plus_full, Z_mod_plus_full by done.
  cbv zeta. cbv beta iota.
  destruct (bool_decide (_ ∨ _)); cbn [fst snd]; [f_equal; f_equal; lia|].
  destruct (bool_decide (_ < _)); cbn [fst snd]; f_equal; f_equal; lia.
Qed.

Lemma is_leap_shift y k : CPython.is_leap (y + 400 * k) = CPython.is_leap y.
Proof.
  unfold CPython.is_leap. apply bool_decide_ext.
  Z.div_mod_to_equations. lia.
Qed.

Lemma ymd2ord_shift y m d k :
  CPython.ymd2ord (y + 400 * k) m d = CPython.ymd2ord y m d + 146097 * k.
Proof.
  rewrite !ymd2ord_flag, is_leap_shift.
  unfold CPython.days_before_year. cbv zeta.
  Z.div_mod_to_equations. lia.
Qed.

Lemma month_table :
  all_from (λ y, all_from (month_ok y) 12 1) 401 1 = true.
Proof. vm_compute. reflexivity. Qed.

Lemma first_of_previous_month_shift k y m d :
  first_of_previous_month (y + 400 * k, m, d)
  = shift_years k (first_of_previous_month (y, m, d)).
Proof.
  unfold first_of_previous_month, shift_years.
  case_bool_decide; cbn [fst snd]; f_equal; f_equal; lia.
Qed.

Lemma month_facts y m :
  1 ≤ y → 1 ≤ m ≤ 12 →
  CPython.ord2ymd (CPython.ymd2ord y m 1) = (y, m, 1)
  ∧ (¬ (y = 1 ∧ m = 1) →
     (CPython.ord2ymd (CPython.ymd2ord y m 1 - 1)).1
     = (first_of_previous_month (y, m, 1)).1
     ∧ CPython.ymd2ord (first_of_previous_month (y, m, 1)).1.1
         (first_of_previous_month (y, m, 1)).1.2 1
       < CPython.ymd2ord y m 1).
Proof.
  intros Hy Hm.
  assert (Hred : ∃ y0 k, y = y0 + 400 * k ∧ 1 ≤ y0 ≤ 401
                         ∧ (y0 = 1 → k = 0)).
  { destruct (decide (y ≤ 401)); [exists y, 0; lia|].
    exists (y - 400 * ((y - 2) / 400)), ((y - 2) / 400).
    Z.div_mod_to_equations. lia. }
  destruct Hred as (y0 & k & -> & Hy0 & Hk).
  pose proof (all_from_spec _ _ _ y0 month_table) as Hrow.
  cbv beta in Hrow. specialize (Hrow ltac:(lia)).
  pose proof (all_from_spec _ _ _ m Hrow ltac:(lia)) as Hok.
  unfold month_ok in Hok.
  apply andb_prop in Hok as [H1%bool_decide_eq_true Hok].
  rewrite ymd2ord_shift, ord2ymd_shift, H1. split; [done|].
  intros Hnot. apply orb_prop in Hok as [Hok|Hok].
  { apply bool_decide_eq_true in Hok as [-> ->].
    rewrite (Hk eq_refl) in Hnot. exfalso. apply Hnot. lia. }
  apply bool_decide_eq_true in Hok as [H2 H3].
  replace (CPython.ymd2ord y0 m 1 + 146097 * k - 1)
    with (CPython.ymd2ord y0 m 1 - 1 + 146097 * k) by lia.
  rewrite ord2ymd_shift, first_of_previous_month_shift. split.
  - unfold shift_years. cbn [fst snd]. by rewrite H2.
  - unfold shift_years. cbn [fst snd]. rewrite ymd2ord_shift. lia.
Qed.

Lemma ymd2ord_january_year_1 d : CPython.ymd2ord 1 1 d = d.
Proof.
  rewrite ymd2ord_flag.
  change (CPython.days_before_year 1) with 0.
  change (dbm_flag (CPython.is_leap 1) 1) with 0. lia.
Qed.

(** X19.  The default of [--start-date] is the first day of the month
    before the current one (of December of the year before, in January),
    and so lies before today; this for every day from the second month of
    year 1 on. *)
Theorem default_start_is_first_of_previous_month (now : Datetime) :
  32 ≤ dt_date now →
  CPython.ord2ymd (default_start_day now)
  = first_of_previous_month (CPython.ord2ymd (dt_date now))
  ∧ default_start_day now < dt_date now.
Proof.
  intros Hn. unfold default_start_day, replace_day.
  destruct (ord2ymd_spec (dt_date now)) as (Hy & Hm & Hd & Hord); [lia|].
  destruct (CPython.ord2ymd (dt_date now)) as [[y m] d]. cbn [fst snd] in *.
  destruct (month_facts y m Hy Hm) as [_ Hprev].
  destruct Hprev as [Hprev Hlt].
  { intros [-> ->]. rewrite ymd2ord_january_year_1 in Hord. lia. }
  destruct (CPython.ord2ymd (CPython.ymd2ord y m 1 - 1)) as [[y' m'] d'].
  cbn [fst] in Hprev.
  assert (Hfirst : first_of_previous_month (y, m, d) = (y', m', 1)).
  { unfold first_of_previous_month in Hprev |- *.
    case_bool_decide; cbn [fst] in Hprev; congruence. }
  assert (Hfirst1 : first_of_previous_month (y, m, 1) = (y', m', 1)).
  { unfold first_of_previous_month in Hprev |- *.
    case_bool_decide; cbn [fst] in Hprev; congruence. }
  rewrite Hfirst1 in Hlt. cbn [fst snd] in Hlt.
  rewrite Hfirst.
  assert (1 ≤ y' ∧ 1 ≤ m' ≤ 12) as [Hy' Hm'].
  { unfold first_of_previous_month in Hfirst. case_bool_decide;
      injection Hfirst as <- <-; [|lia].
    assert (y ≠ 1); [|lia]. intros ->. subst m.
    rewrite ymd2ord_january_year_1 in Hord. lia. }
  destruct (month_facts y' m' Hy' Hm') as [-> _]. split; [done|].
  assert (CPython.ymd2ord y m 1 ≤ CPython.ymd2ord y m d); [|lia].
  rewrite !ymd2ord_flag. lia.
Qed.
End calendar_facts.

(** ** The further properties on concrete inputs *)

Lemma returning_run_shape_witness :
  ∃ pages data,
    network (fresh_world [mixed_page])
    = pages ++ data
      :: network (fetched mixed_page 2 (fresh_world [mixed_page]))
    ∧ Forall continuing pages
    ∧ sent (fetched mixed_page 2 (fresh_world [mixed_page]))
      = sent (fresh_world [mixed_page])
        ++ ((λ f, statements_request "123456" "01-03-2024" "02-03-2024" f
                    (request_headers "token"))
            <$> follow_ids None (pages ++ [data]))
    ∧ ((is_last_page data
        ∧ example_transactions = pages_transactions (pages ++ [data])
        ∧ last (log (fetched mixed_page 2 (fresh_world [mixed_page])))
          = Some (INFO, FetchedSoFar (length example_transactions)))
       ∨ (failed data
          ∧ example_transactions = pages_transactions pages
          ∧ last (log (fetched mixed_page 2 (fresh_world [mixed_page])))
            = Some (ERROR, FailedToFetch data))).
Proof.
  apply (returning_run_shape "123456" "01-03-2024" "02-03-2024" "token"
           (fresh_world [mixed_page]) example_transactions
           (fetched mixed_page 2 (fresh_world [mixed_page]))).
  reflexivity.
Defined.

Lemma malformed_input_raises_witness :
  @calculate_daily_amounts CPython.library
    [credit_march_1; malformed_transaction; debit_march_2] "01-03-2024"
    (Some "02-03-2024") noon = None.
Proof.
  apply (malformed_input_raises (H:=CPython.library)
           [credit_march_1; malformed_transaction; debit_march_2]
           "01-03-2024" (Some "02-03-2024") noon).
  right; right. apply Exists_cons_tl, Exists_cons_hd. left. reflexivity.
Defined.


(** With the clock at noon of 5 March 2024 and no end date, the records
    run from the start day to that day. *)
Example five_days_until_today :
  fmap (M:=list) date
  <$> @calculate_daily_amounts CPython.library example_transactions
        "01-03-2024" None noon
  = Some ["2024-03-01"; "2024-03-02"; "2024-03-03"; "2024-03-04";
          "2024-03-05"].
Proof. vm_compute. reflexivity. Qed.

Lemma output_length_bounds_witness :
  ∃ rows,
    @calculate_daily_amounts CPython.library example_transactions
      "01-03-2024" (Some "02-03-2024") noon = Some rows
    ∧ (Z.to_nat (day_count march_1 march_2) ≤ length rows
       ≤ Z.to_nat (day_count march_1 march_2)
         + length example_transactions)%nat.
Proof.
  apply (output_length_bounds (H:=CPython.library) example_transactions
           "01-03-2024" (Some "02-03-2024") noon march_1 march_2);
    [reflexivity | reflexivity | parsed].
Defined.

Lemma records_without_transactions_are_zero_witness :
  ∃ (start end_ : Datetime) items,
    @strptime CPython.library "01-03-2024" "%d-%m-%Y" = Some start
    ∧ @effective_end CPython.library (Some "02-03-2024") noon = Some end_
    ∧ late_rows = @daily_amount CPython.library <$> items
    ∧ ∀ d r, (d, r) ∈ items →
        (¬ Exists (λ t, @day_of CPython.library t = Some d)
             [late_transaction] →
         r = zero_totals
         ∧ dt_date start ≤ d < dt_date start + day_count start end_)
        ∧ (Exists (λ t, @day_of CPython.library t = Some d)
             [late_transaction] →
           r = @accumulate CPython.library d zero_totals [late_transaction]).
Proof.
  apply (records_without_transactions_are_zero (H:=CPython.library)
           [late_transaction] "01-03-2024" (Some "02-03-2024") noon
           late_rows).
  vm_compute. reflexivity.
Defined.

Lemma dates_independent_of_order_witness :
  fmap (M:=list) date
  <$> @calculate_daily_amounts CPython.library
        [credit_march_1; debit_march_2] "01-03-2024" (Some "02-03-2024")
        noon
  = fmap (M:=list) date
    <$> @calculate_daily_amounts CPython.library
          [debit_march_2; credit_march_1] "01-03-2024"
          (Some "02-03-2024") noon.
Proof.
  apply (dates_independent_of_order (H:=CPython.library)
           [credit_march_1; debit_march_2] [debit_march_2; credit_march_1]
           "01-03-2024" (Some "02-03-2024") noon).
  apply perm_swap.
Defined.



Lemma malformed_data_aborts_the_run_witness :
  ∃ w2,
    @generate_report CPython.library ["123456"; "77"] "01-03-2024"
      "02-03-2024" "token" "csv" (fresh_world [malformed_page; single_page])
    = Raises ValueError w2
    ∧ sent w2
      = sent (logging INFO (FetchedSoFar 1)
                (set_network [single_page]
                   (send (statements_request "123456" "01-03-2024"
                            "02-03-2024" None (request_headers "token"))
                      (logging INFO (ProcessingAccount "123456")
                         (fresh_world [malformed_page; single_page])))))
    ∧ log w2
      = log (logging INFO (FetchedSoFar 1)
               (set_network [single_page]
                  (send (statements_request "123456" "01-03-2024"
                           "02-03-2024" None (request_headers "token"))
                     (logging INFO (ProcessingAccount "123456")
                        (fresh_world [malformed_page; single_page])))))
    ∧ network w2
      = network (logging INFO (FetchedSoFar 1)
                   (set_network [single_page]
                      (send (statements_request "123456" "01-03-2024"
                               "02-03-2024" None (request_headers "token"))
                         (logging INFO (ProcessingAccount "123456")
                            (fresh_world [malformed_page; single_page])))))
    ∧ files w2 = files (fresh_world [malformed_page; single_page]).
Proof.
  apply (malformed_data_aborts_the_run (H:=CPython.library) "123456" ["77"]
           "01-03-2024" "02-03-2024" "token" "csv"
           (fresh_world [malformed_page; single_page])
           (logging INFO (FetchedSoFar 1)
              (set_network [single_page]
                 (send (statements_request "123456" "01-03-2024"
                          "02-03-2024" None (request_headers "token"))
                    (logging INFO (ProcessingAccount "123456")
                       (fresh_world [malformed_page; single_page])))))
           malformed_transaction []);
    [reflexivity | vm_compute; reflexivity].
Defined.

Lemma unwritable_report_aborts_the_run_witness :
  ∃ w2,
    @generate_report CPython.library ["123456"; "77"] "01-03-2024"
      "02-03-2024" "token" "csv" (fresh_world [slash_named_page; single_page])
    = Raises OSError w2
    ∧ (OSError = OSError ∨ OSError = ValueError)
    ∧ sent w2
      = sent (logging INFO (FetchedSoFar 1)
                (set_network [single_page]
                   (send (statements_request "123456" "01-03-2024"
                            "02-03-2024" None (request_headers "token"))
                      (logging INFO (ProcessingAccount "123456")
                         (fresh_world [slash_named_page; single_page])))))
    ∧ log w2
      = log (logging INFO (FetchedSoFar 1)
               (set_network [single_page]
                  (send (statements_request "123456" "01-03-2024"
                           "02-03-2024" None (request_headers "token"))
                     (logging INFO (ProcessingAccount "123456")
                        (fresh_world [slash_named_page; single_page])))))
    ∧ network w2
      = network (logging INFO (FetchedSoFar 1)
                   (set_network [single_page]
                      (send (statements_request "123456" "01-03-2024"
                               "02-03-2024" None (request_headers "token"))
                         (logging INFO (ProcessingAccount "123456")
                            (fresh_world [slash_named_page; single_page])))))
    ∧ files w2 = files (fresh_world [slash_named_page; single_page]).
Proof.
  apply (unwritable_report_aborts_the_run (H:=CPython.library) "123456"
           ["77"] "01-03-2024" "02-03-2024" "token" "csv"
           (fresh_world [slash_named_page; single_page])
           (logging INFO (FetchedSoFar 1)
              (set_network [single_page]
                 (send (statements_request "123456" "01-03-2024"
                          "02-03-2024" None (request_headers "token"))
                    (logging INFO (ProcessingAccount "123456")
                       (fresh_world [slash_named_page; single_page])))))
           slash_named_transaction []
           [ {| date := "2024-03-01"; totals := mkTotals 100 0 2700 0 |};
             {| date := "2024-03-02"; totals := zero_totals |} ]
           OSError);
    [reflexivity | vm_compute; reflexivity | reflexivity].
Defined.

(** The name of the holder goes into the file name as it is: with a [/]
    in it the file cannot be opened, the run stops with the [OSError] and
    no file exists. *)
Example slash_in_the_name_stops_the_run :
  ∃ w',
    @generate_report CPython.library ["123456"; "77"] "01-03-2024"
      "02-03-2024" "token" "csv" (fresh_world [slash_named_page; single_page])
    = Raises OSError w'
    ∧ files w' = ∅
    ∧ network w' = [single_page]
    ∧ log w'
      = [(INFO, ProcessingAccount "123456"); (INFO, FetchedSoFar 1)].
Proof. eexists. split_and!; [vm_compute; reflexivity|reflexivity..]. Qed.

Lemma failed_fetches_write_nothing_witness :
  ∃ w',
    @generate_report CPython.library ["77"; "78"] "01-03-2024" "02-03-2024"
      "token" "csv"
      (fresh_world [error_response; error_response; single_page])
    = Returns tt w'
    ∧ files w'
      = files (fresh_world [error_response; error_response; single_page])
    ∧ network w' = [single_page]
    ∧ length (sent w')
      = (length
           (sent (fresh_world [error_response; error_response; single_page]))
         + length ["77"; "78"])%nat
    ∧ log w'
      = log (fresh_world [error_response; error_response; single_page])
        ++ (zip ["77"; "78"] [error_response; error_response]
            ≫= λ ab, skipped_logs ab.1 ab.2).
Proof.
  apply (failed_fetches_write_nothing (H:=CPython.library) ["77"; "78"]
           [error_response; error_response] [single_page] "01-03-2024"
           "02-03-2024" "token" "csv"
           (fresh_world [error_response; error_response; single_page]));
    [reflexivity | reflexivity | repeat constructor; done].
Defined.

Lemma main_sends_the_resolved_token_witness :
  ∃ token new,
    ((Args.token_file example_args ≠ ""
      ∧ ∃ content,
          token_disk (Args.token_file example_args) = Some content
          ∧ token = strip ascii_isspace content)
     ∨ (Args.token_file example_args = "" ∧ Args.token example_args ≠ ""
        ∧ token = Args.token example_args))
    ∧ @generate_report CPython.library ["123456"] "01-03-2024" "02-03-2024"
        "secret" "csv" (fresh_world [single_page])
      = @generate_report CPython.library (Args.accounts example_args)
          (Args.start_date example_args) (Args.end_date example_args) token
          (Args.format example_args) (fresh_world [single_page])
    ∧ sent (outcome_world
              (@generate_report CPython.library ["123456"] "01-03-2024"
                 "02-03-2024" "secret" "csv" (fresh_world [single_page])))
      = sent (fresh_world [single_page]) ++ new
    ∧ Forall (λ r,
        headers r
        = [("Content-Type", "application/json;utf8"); ("token", token)])
        new.
Proof.
  apply (main_sends_the_resolved_token (H:=CPython.library) ascii_isspace
           token_disk example_args (fresh_world [single_page])
           (@generate_report CPython.library ["123456"] "01-03-2024"
              "02-03-2024" "secret" "csv" (fresh_world [single_page]))).
  vm_compute. reflexivity.
Defined.

(** The token file wins over [--token], and its final newline is
    dropped. *)
Example token_file_read_and_stripped :
  resolve_token ascii_isspace token_disk example_args = Proceed "secret".
Proof. reflexivity. Qed.

Lemma default_start_is_first_of_previous_month_witness :
  CPython.ord2ymd (default_start_day noon)
  = first_of_previous_month (CPython.ord2ymd (dt_date noon))
  ∧ default_start_day noon < dt_date noon.
Proof.
  apply (default_start_is_first_of_previous_month noon).
  unfold noon. simpl. lia.
Defined.

(** On 5 March 2024 the default start is 1 February 2024; on 15 January
    2024 it is 1 December 2023. *)
Example default_start_in_march_and_january :
  CPython.ord2ymd (default_start_day noon) = (2024, 2, 1)
  ∧ CPython.ord2ymd (default_start_day (mkDatetime 738900 0)) = (2023, 12, 1).
Proof. split; vm_compute; reflexivity. Qed.
